(** * Batch samplers of [datamodule/samplers.py]

    A shallow embedding of the frame-count batch samplers and of the wrappers
    that shard or reshuffle their output, followed by the properties of the
    specification that hold of them (and the ones that do not). *)

From Stdlib Require Import List ZArith Lia Bool Arith Permutation Sorted.
Import ListNotations.
Local Open Scope Z_scope.

(** ** Python values used by the samplers *)

(** The exceptions the modelled code can raise. *)
Inductive PyError : Set :=
| TypeError
| IndexError
| ValueError
| AssertionError
| ZeroDivisionError.

(** A computation that returns a value or raises. *)
Inductive result (A : Type) : Type :=
| Ok (a : A)
| Raise (e : PyError).
Arguments Ok {A} a.
Arguments Raise {A} e.

(** A batch is an array of item indices ([np.array(..., dtype=np.int64)]). *)
Definition Batch : Set := list nat.

(** An item of [dataset.list]: the samplers read [item[2]] (the frame count)
    and [item[3][0].item()] (the language token). *)
Record Item : Set := { item_frames : Z; item_lang : Z }.

(** [l[i]] on a Python list: negative indices count from the end, anything
    outside [-len, len) raises [IndexError]. *)
Definition py_getitem {A : Type} (l : list A) (i : Z) : result A :=
  let n := Z.of_nat (length l) in
  let k := if i <? 0 then i + n else i in
  if (0 <=? k) && (k <? n)
  then match nth_error l (Z.to_nat k) with
       | Some x => Ok x
       | None => Raise IndexError
       end
  else Raise IndexError.

(** [[k for k, item in enumerate(l) if p(item)]]. *)
Definition enumerate_where {A : Type} (p : A -> bool) (l : list A) : list nat :=
  map fst (filter (fun ki => p (snd ki)) (combine (seq 0 (length l)) l)).

(** ** [numpy] *)

Module np.

Section Lexsort.
(** [np.lexsort([tiebreak, primary])]: the last key is the dominant one. *)
Variables (tiebreak : list nat) (primary : list Z).

Definition key_le (i j : nat) : bool :=
  (nth i primary 0 <? nth j primary 0)
  || ((nth i primary 0 =? nth j primary 0)
      && (nth i tiebreak 0%nat <=? nth j tiebreak 0%nat)%nat).

Fixpoint insert (i : nat) (l : list nat) : list nat :=
  match l with
  | [] => [i]
  | j :: l' => if key_le i j then i :: l else j :: insert i l'
  end.

(** The indices [0 .. n-1] in ascending order of [(primary, tiebreak)];
    the sort is stable, an index with equal keys stays behind the smaller
    indices.  Both keys have the length of [primary] (numpy raises
    otherwise; every caller passes keys of equal length). *)
Definition lexsort : list nat :=
  fold_right insert [] (seq 0 (length primary)).
End Lexsort.

End np.

(** ** [torch] *)

(** [torch.randperm(n, generator=g)] after [g.manual_seed(s)]: a function of
    the seed and of [n] alone, the generator being created for the call. *)
Class TorchRandperm : Type := randperm : Z -> nat -> list nat.

(** What the samplers need of it: [randperm s n] permutes [0 .. n-1]. *)
Definition randperm_spec (RP : TorchRandperm) : Prop :=
  forall (s : Z) (n : nat), Permutation (@randperm RP s n) (seq 0 n).

(** ** [fairseq.data.data_utils] *)

Module data_utils.

Section BatchBySize.
Variables (num_tokens_fn : nat -> Z) (max_tokens : Z).

(** The running batch [cur] holds [cur_tokens] frames in all. *)
Fixpoint batch_loop (indices : list nat) (cur : Batch) (cur_tokens : Z)
  : list Batch :=
  match indices with
  | [] => match cur with [] => [] | _ :: _ => [cur] end
  | i :: rest =>
      match cur with
      | [] => batch_loop rest [i] (num_tokens_fn i)
      | _ :: _ =>
          if cur_tokens + num_tokens_fn i <=? max_tokens
          then batch_loop rest (cur ++ [i]) (cur_tokens + num_tokens_fn i)
          else cur :: batch_loop rest [i] (num_tokens_fn i)
      end
  end.

(** Modelled from the spec: [data_utils.batch_by_size] is fairseq's, not
    under src/.  The grouping primitive is greedy and first-fit along the
    given order and never reorders: an index joins the running batch
    while the batch's total cost stays within the budget, and otherwise
    closes it and opens the next one; an index whose cost alone exceeds
    the budget still forms a batch of its own. *)
Definition batch_by_size (indices : list nat) : list Batch :=
  batch_loop indices [] 0.
End BatchBySize.

End data_utils.

(** ** The sampler interface *)

(** What the wrappers use of a sampler: [list(sampler)], which may change the
    sampler, [len(sampler)] and [sampler.set_epoch(epoch)]. *)
Class Sampler (S : Type) : Type := {
  py_list : S -> list Batch * S;
  py_len : S -> nat;
  py_set_epoch : S -> Z -> S
}.

(** ** [ByFrameCountSampler] *)

Module ByFrameCountSampler.

(** [dataset] stands for the item collection: it holds [self.dataset.list],
    and [len(self.dataset)] is the length of that list. *)
Record t : Set := {
  dataset : list Item;
  max_frames_per_gpu : Z;
  sizes : list Z;
  shuffle : bool;
  seed : Z;
  epoch : Z;
  num_batches : nat
}.

Section Methods.
Context {RP : TorchRandperm}.

Definition _get_indices (self : t) : list nat :=
  let order :=
    if shuffle self
    then randperm (seed self + epoch self) (length (dataset self))
    else seq 0 (length (dataset self)) in
  rev (np.lexsort order (sizes self)).

Definition __iter__ (self : t) : list Batch :=
  data_utils.batch_by_size (fun i => nth i (sizes self) 0)
    (max_frames_per_gpu self) (_get_indices self).

(** [num_batches] is read by [__len__] only; it is not yet set while the
    constructor runs its sizing pass. *)
Definition __init__ (dataset : list Item) (max_frames_per_gpu : Z)
    (shuffle : bool) (seed : Z) : t :=
  let self :=
    {| dataset := dataset;
       max_frames_per_gpu := max_frames_per_gpu;
       sizes := map item_frames dataset;
       shuffle := shuffle;
       seed := seed;
       epoch := 0;
       num_batches := 0 |} in
  let batch_indices :=
    data_utils.batch_by_size (fun i => nth i (sizes self) 0)
      max_frames_per_gpu (_get_indices self) in
  {| dataset := dataset;
     max_frames_per_gpu := max_frames_per_gpu;
     sizes := sizes self;
     shuffle := shuffle;
     seed := seed;
     epoch := 0;
     num_batches := length batch_indices |}.

Definition __len__ (self : t) : nat := num_batches self.

Definition set_epoch (self : t) (e : Z) : t :=
  {| dataset := dataset self;
     max_frames_per_gpu := max_frames_per_gpu self;
     sizes := sizes self;
     shuffle := shuffle self;
     seed := seed self;
     epoch := e;
     num_batches := num_batches self |}.

(** Iterating the sampler leaves it as it was. *)
#[global] Instance sampler : Sampler t :=
  {| py_list := fun self => (__iter__ self, self);
     py_len := __len__;
     py_set_epoch := set_epoch |}.
End Methods.

End ByFrameCountSampler.

(** ** [ByFrameCountSamplerMultilang] *)

Module ByFrameCountSamplerMultilang.

(** The language tokens are taken to start from 2: partition [j] of
    [dataset_idx] and [sizes] belongs to the token [2 + j]. *)
Record t : Set := {
  dataset : list Item;
  max_frames_per_gpu : Z;
  dataset_idx : list (list nat);
  sizes : list (list Z);
  shuffle : bool;
  seed : Z;
  epoch : Z;
  num_batches : nat
}.

(** [range(2, max_language_token + 1)]. *)
Definition lang_range (max_language_token : Z) : list Z :=
  map Z.of_nat (seq 2 (Z.to_nat (max_language_token + 1) - 2)).

Definition is_lang (j : Z) (item : Item) : bool := item_lang item =? j.

Section Methods.
Context {RP : TorchRandperm}.

Definition _get_indices (self : t) (j : nat) : list nat :=
  let order :=
    if shuffle self
    then randperm (seed self + epoch self) (length (nth j (dataset_idx self) []))
    else nth j (dataset_idx self) [] in
  rev (np.lexsort order (nth j (sizes self) [])).

(** One turn of the loop over [j]: the partition's batches, their
    partition-local indices replaced by the indices of [dataset_idx[j]]. *)
Definition batches_of (self : t) (j : nat) : list Batch :=
  let batch_ind_j :=
    data_utils.batch_by_size (fun i => nth i (nth j (sizes self) []) 0)
      (max_frames_per_gpu self) (_get_indices self j) in
  map (fun bval => map (fun bvali => nth bvali (nth j (dataset_idx self) []) 0%nat) bval)
    batch_ind_j.

(** The batch list the constructor builds: empty partitions are skipped. *)
Definition init_batch_indices (self : t) : list Batch :=
  flat_map
    (fun j => if (0 <? length (nth j (sizes self) []))%nat then batches_of self j else [])
    (seq 0 (length (sizes self))).

Definition __iter__ (self : t) : list Batch :=
  flat_map (batches_of self) (seq 0 (length (sizes self))).

Definition __init__ (dataset : list Item) (max_frames_per_gpu : Z)
    (shuffle : bool) (seed : Z) (max_language_token : Z) : t :=
  let langs := lang_range max_language_token in
  let self :=
    {| dataset := dataset;
       max_frames_per_gpu := max_frames_per_gpu;
       dataset_idx := map (fun j => enumerate_where (is_lang j) dataset) langs;
       sizes := map (fun j => map item_frames (filter (is_lang j) dataset)) langs;
       shuffle := shuffle;
       seed := seed;
       epoch := 0;
       num_batches := 0 |} in
  {| dataset := dataset;
     max_frames_per_gpu := max_frames_per_gpu;
     dataset_idx := dataset_idx self;
     sizes := sizes self;
     shuffle := shuffle;
     seed := seed;
     epoch := 0;
     num_batches := length (init_batch_indices self) |}.

Definition __len__ (self : t) : nat := num_batches self.

Definition set_epoch (self : t) (e : Z) : t :=
  {| dataset := dataset self;
     max_frames_per_gpu := max_frames_per_gpu self;
     dataset_idx := dataset_idx self;
     sizes := sizes self;
     shuffle := shuffle self;
     seed := seed self;
     epoch := e;
     num_batches := num_batches self |}.

#[global] Instance sampler : Sampler t :=
  {| py_list := fun self => (__iter__ self, self);
     py_len := __len__;
     py_set_epoch := set_epoch |}.
End Methods.

End ByFrameCountSamplerMultilang.

(** ** [DatasetFromSampler] *)

Module DatasetFromSampler.

(** [self.sampler] is a reference to the sampler the wrapper also holds; the
    sampler object is kept once, by the owner of the view, and handed to the
    methods, so that a change of the sampler is seen through the view. *)
Record t : Set := { sampler_list : option (list Batch) }.

Definition __init__ : t := {| sampler_list := None |}.

Section Methods.
Context {S : Type} {SS : Sampler S}.

(** Returns the element (or raises), the sampler after the call and the view
    after the call. *)
Definition __getitem__ (sampler : S) (self : t) (index : Z)
  : result Batch * (S * t) :=
  match sampler_list self with
  | None =>
      let (l, sampler') := py_list sampler in
      (py_getitem l index, (sampler', {| sampler_list := Some l |}))
  | Some l => (py_getitem l index, (sampler, self))
  end.

Definition __len__ (sampler : S) (self : t) : nat := py_len sampler.

(** [tuple(obj[i] for i in items)], left to right, up to the first raise. *)
Fixpoint getitems (sampler : S) (self : t) (items : list Z)
  : result (list Batch) * (S * t) :=
  match items with
  | [] => (Ok [], (sampler, self))
  | i :: rest =>
      match __getitem__ sampler self i with
      | (Raise e, st) => (Raise e, st)
      | (Ok b, (sampler', self')) =>
          match getitems sampler' self' rest with
          | (Ok bs, st) => (Ok (b :: bs), st)
          | (Raise e, st) => (Raise e, st)
          end
      end
  end.
End Methods.

End DatasetFromSampler.

(** What [iter(itemgetter( *items)(dataset))] produces, one after the other:
    whole batches, or the item indices of one batch. *)
Inductive Yielded : Set :=
| YBatch (b : Batch)
| YIndex (i : nat).

Section Itemgetter.
Context {S : Type} {SS : Sampler S}.

(** [operator.itemgetter] needs at least one item; with exactly one it
    returns [obj[item]] itself, not a tuple, and iterating that array yields
    its elements; with more it returns the tuple of the lookups. *)
Definition iter_itemgetter (sampler : S) (dataset : DatasetFromSampler.t)
    (items : list Z) : result (list Yielded) * (S * DatasetFromSampler.t) :=
  match items with
  | [] => (Raise TypeError, (sampler, dataset))
  | [i] =>
      match DatasetFromSampler.__getitem__ sampler dataset i with
      | (Ok b, st) => (Ok (map YIndex b), st)
      | (Raise e, st) => (Raise e, st)
      end
  | _ :: _ :: _ =>
      match DatasetFromSampler.getitems sampler dataset items with
      | (Ok bs, st) => (Ok (map YBatch bs), st)
      | (Raise e, st) => (Raise e, st)
      end
  end.
End Itemgetter.

(** ** Slices *)

(** [l[:k]]: a negative [k] counts from the end. *)
Definition py_take {A : Type} (l : list A) (k : Z) : list A :=
  if k <? 0
  then firstn (Z.to_nat (Z.of_nat (length l) + k)) l
  else firstn (Z.to_nat k) l.

(** [l[start:stop:step]] for [0 <= start], [0 <= stop] and [0 < step]: the
    elements at the positions [start, start + step, ...] below [stop]. *)
Definition py_slice_step {A : Type} (l : list A) (start stop step : Z) : list A :=
  map snd
    (filter
       (fun ix => let i := Z.of_nat (fst ix) in
                  (start <=? i) && (i <? stop) && ((i - start) mod step =? 0))
       (combine (seq 0 (length l)) l)).

(** [l * k]. *)
Definition py_repeat {A : Type} (l : list A) (k : nat) : list A :=
  concat (repeat l k).

(** [math.ceil(a / b)] for [0 < b]. *)
Definition ceil_div (a b : Z) : Z := - ((- a) / b).

(** ** [torch.utils.data.DistributedSampler] *)

Module DistributedSampler.

Record t : Set := {
  num_replicas : Z;
  rank : Z;
  epoch : Z;
  drop_last : bool;
  num_samples : Z;
  total_size : Z;
  shuffle : bool;
  seed : Z
}.

(** Modelled from the spec: the parent class is torch's, not under src/.
    The constructor, given the number of shards and the rank, fails fast
    with a configuration error when the rank is outside [0, num_shards)
    (which covers every [num_shards <= 0]); otherwise it fixes the count
    every shard returns: with [drop_last] the snapshot is truncated to a
    multiple of the shard count, without it padded up to one. *)
Definition __init__ (len_dataset : nat) (num_replicas rank : Z)
    (shuffle drop_last : bool) : result t :=
  if (rank >=? num_replicas) || (rank <? 0) then Raise ValueError
  else
    let n := Z.of_nat len_dataset in
    let num_samples :=
      if drop_last && negb (n mod num_replicas =? 0)
      then ceil_div (n - num_replicas) num_replicas
      else ceil_div n num_replicas in
    Ok {| num_replicas := num_replicas;
          rank := rank;
          epoch := 0;
          drop_last := drop_last;
          num_samples := num_samples;
          total_size := num_samples * num_replicas;
          shuffle := shuffle;
          seed := 0 |}.

Definition set_epoch (self : t) (e : Z) : t :=
  {| num_replicas := num_replicas self;
     rank := rank self;
     epoch := e;
     drop_last := drop_last self;
     num_samples := num_samples self;
     total_size := total_size self;
     shuffle := shuffle self;
     seed := seed self |}.

Section Iter.
Context {RP : TorchRandperm}.

(** The permuted (or identity) order over the snapshot positions, padded by
    repetition or truncated to [total_size]. *)
Definition padded_indices (self : t) (len_dataset : nat) : result (list nat) :=
  let indices :=
    if shuffle self
    then randperm (seed self + epoch self) len_dataset
    else seq 0 len_dataset in
  let n := Z.of_nat (length indices) in
  if negb (drop_last self)
  then
    let padding_size := total_size self - n in
    if padding_size <=? n then Ok (indices ++ py_take indices padding_size)
    else if n =? 0 then Raise ZeroDivisionError
    else Ok (indices
             ++ py_take (py_repeat indices (Z.to_nat (ceil_div padding_size n)))
                  padding_size)
  else Ok (py_take indices (total_size self)).

(** Modelled from the spec: the parent's iteration, torch's and not under
    src/.  The global order over the snapshot positions is the permutation
    seeded by [seed + epoch] when shuffling and the identity otherwise; it
    is padded by repetition or, with [drop_last], truncated, so that every
    shard returns the same count; the shard of rank [r] takes the positions
    [r, r + num_shards, ...] of it. *)
Definition __iter__ (self : t) (len_dataset : nat) : result (list nat) :=
  match padded_indices self len_dataset with
  | Raise e => Raise e
  | Ok indices =>
      if negb (Z.of_nat (length indices) =? total_size self)
      then Raise AssertionError
      else
        let mine :=
          py_slice_step indices (rank self) (total_size self) (num_replicas self) in
        if negb (Z.of_nat (length mine) =? num_samples self)
        then Raise AssertionError
        else Ok mine
  end.
End Iter.

End DistributedSampler.

(** ** [DistributedSamplerWrapper] *)

Module DistributedSamplerWrapper.

Record t (S : Type) : Type := {
  super : DistributedSampler.t;
  dataset : DatasetFromSampler.t;
  sampler : S
}.
Arguments super {S} _.
Arguments dataset {S} _.
Arguments sampler {S} _.

Section Methods.
Context {RP : TorchRandperm} {S : Type} {SS : Sampler S}.

Definition __init__ (sampler : S) (num_replicas rank : Z)
    (shuffle drop_last : bool) : result (t S) :=
  let dataset := DatasetFromSampler.__init__ in
  match DistributedSampler.__init__ (DatasetFromSampler.__len__ sampler dataset)
          num_replicas rank shuffle drop_last with
  | Raise e => Raise e
  | Ok base => Ok {| super := base; dataset := dataset; sampler := sampler |}
  end.

(** The value is what iterating the returned iterator yields; the wrapper
    after the call is returned with it, also when the call raises. *)
Definition __iter__ (self : t S) : result (list Yielded) * t S :=
  let dataset := DatasetFromSampler.__init__ in
  match DistributedSampler.__iter__ (super self)
          (DatasetFromSampler.__len__ (sampler self) dataset) with
  | Raise e =>
      (Raise e, {| super := super self; dataset := dataset; sampler := sampler self |})
  | Ok indexes_of_indexes =>
      let '(r, (sampler', dataset')) :=
        iter_itemgetter (sampler self) dataset (map Z.of_nat indexes_of_indexes) in
      (r, {| super := super self; dataset := dataset'; sampler := sampler' |})
  end.

Definition set_epoch (self : t S) (e : Z) : t S :=
  {| super := DistributedSampler.set_epoch (super self) e;
     dataset := dataset self;
     sampler := py_set_epoch (sampler self) e |}.
End Methods.

End DistributedSamplerWrapper.

(** ** [torch.utils.data.RandomSampler] *)

(** [int(torch.empty((), dtype=torch.int64).random_().item())]: a draw from
    torch's default generator, given as the state of that generator before
    the draw, returning the number drawn and the state after. *)
Class TorchDefaultGenerator : Type := torch_random_ : Z -> Z * Z.

Module RandomSampler.

Section Methods.
Context {RP : TorchRandperm} {DG : TorchDefaultGenerator}.

(** Modelled from the spec: the parent class is torch's, not under src/.
    Without replacement and with the default sample count it refuses an
    empty data source at construction. *)
Definition __init__ (len_data_source : nat) : result unit :=
  if (len_data_source =? 0)%nat then Raise ValueError else Ok tt.

(** Modelled from the spec: the parent's iteration, torch's and not under
    src/.  It draws a new seed from the default generator on every call (not
    epoch-seeded) and produces the permutation of the snapshot positions that
    a generator seeded with it gives; [num_samples // n] divides by the
    length of the data source. *)
Definition __iter__ (default_generator : Z) (len_data_source : nat)
  : result (list nat) * Z :=
  let (seed, default_generator') := torch_random_ default_generator in
  if (len_data_source =? 0)%nat
  then (Raise ZeroDivisionError, default_generator')
  else (Ok (randperm seed len_data_source), default_generator').
End Methods.

End RandomSampler.

(** ** [RandomSamplerWrapper] *)

Module RandomSamplerWrapper.

(** The parent keeps the view it was given as [data_source]; [dataset] is an
    attribute of the wrapper's own, absent until the first iteration. *)
Record t (S : Type) : Type := {
  data_source : DatasetFromSampler.t;
  dataset : option DatasetFromSampler.t;
  sampler : S
}.
Arguments data_source {S} _.
Arguments dataset {S} _.
Arguments sampler {S} _.

Section Methods.
Context {RP : TorchRandperm} {DG : TorchDefaultGenerator} {S : Type} {SS : Sampler S}.

Definition __init__ (sampler : S) : result (t S) :=
  let data_source := DatasetFromSampler.__init__ in
  match RandomSampler.__init__ (DatasetFromSampler.__len__ sampler data_source) with
  | Raise e => Raise e
  | Ok _ => Ok {| data_source := data_source; dataset := None; sampler := sampler |}
  end.

(** The state of torch's default generator is threaded through the call. *)
Definition __iter__ (default_generator : Z) (self : t S)
  : result (list Yielded) * t S * Z :=
  let dataset := DatasetFromSampler.__init__ in
  match RandomSampler.__iter__ default_generator
          (DatasetFromSampler.__len__ (sampler self) (data_source self)) with
  | (Raise e, g') =>
      (Raise e,
       {| data_source := data_source self; dataset := Some dataset;
          sampler := sampler self |},
       g')
  | (Ok indexes_of_indexes, g') =>
      let '(r, (sampler', dataset')) :=
        iter_itemgetter (sampler self) dataset (map Z.of_nat indexes_of_indexes) in
      (r,
       {| data_source := data_source self; dataset := Some dataset';
          sampler := sampler' |},
       g')
  end.
End Methods.

End RandomSamplerWrapper.

(** ** Concrete instances for the runs below *)

(** A generator whose permutation is the identity for an even seed and the
    reversal for an odd one. *)
Definition flip_randperm : TorchRandperm :=
  fun s n => if Z.even s then seq 0 n else rev (seq 0 n).

(** A default generator that counts its draws. *)
Definition counting_generator : TorchDefaultGenerator :=
  fun g => (g, g + 1).

(** Items of the given costs, all of language token 2. *)
Definition items_of_costs (costs : list Z) : list Item :=
  map (fun c => {| item_frames := c; item_lang := 2 |}) costs.

(** A sampler that yields a fixed batch list, declares a length of its own
    and counts how often it has been iterated. *)
Record FixedSampler : Set := {
  fixed_batches : list Batch;
  fixed_len : nat;
  iterations : nat
}.

#[global] Instance fixed_sampler : Sampler FixedSampler :=
  {| py_list := fun s =>
       (fixed_batches s,
        {| fixed_batches := fixed_batches s; fixed_len := fixed_len s;
           iterations := S (iterations s) |});
     py_len := fixed_len;
     py_set_epoch := fun s _ => s |}.

(** Five items of costs 3, 1, 4, 1, 5. *)
Definition five_items : list Item := items_of_costs [3; 1; 4; 1; 5].

(** A sampler of four batches and one of a single batch, both of honest
    declared length, and one that declares three batches and yields two. *)
Definition four_batches : FixedSampler :=
  {| fixed_batches := [[0; 1]; [2]; [3]; [4; 5]]%nat; fixed_len := 4; iterations := 0 |}.

Definition one_batch : FixedSampler :=
  {| fixed_batches := [[0; 1]]%nat; fixed_len := 1; iterations := 0 |}.

Definition short_snapshot : FixedSampler :=
  {| fixed_batches := [[0; 1]; [2]]%nat; fixed_len := 3; iterations := 0 |}.

(** The wrappers [DistributedSamplerWrapper(four_batches, num_replicas=2,
    rank=1, shuffle=False)] and [RandomSamplerWrapper(four_batches)], as
    their constructors leave them. *)
Definition shard_1_of_2 : DistributedSamplerWrapper.t FixedSampler :=
  {| DistributedSamplerWrapper.super :=
       {| DistributedSampler.num_replicas := 2;
          DistributedSampler.rank := 1;
          DistributedSampler.epoch := 0;
          DistributedSampler.drop_last := false;
          DistributedSampler.num_samples := 2;
          DistributedSampler.total_size := 4;
          DistributedSampler.shuffle := false;
          DistributedSampler.seed := 0 |};
     DistributedSamplerWrapper.dataset := DatasetFromSampler.__init__;
     DistributedSamplerWrapper.sampler := four_batches |}.

Definition reshuffled : RandomSamplerWrapper.t FixedSampler :=
  {| RandomSamplerWrapper.data_source := DatasetFromSampler.__init__;
     RandomSamplerWrapper.dataset := None;
     RandomSamplerWrapper.sampler := four_batches |}.

(** A sampler of two batches, and the wrapper
    [DistributedSamplerWrapper(two_batches, num_replicas=2, rank=1,
    shuffle=False)] as its constructor leaves it. *)
Definition two_batches : FixedSampler :=
  {| fixed_batches := [[2]; [0; 1]]%nat; fixed_len := 2; iterations := 0 |}.

Definition second_of_two : DistributedSamplerWrapper.t FixedSampler :=
  {| DistributedSamplerWrapper.super :=
       {| DistributedSampler.num_replicas := 2;
          DistributedSampler.rank := 1;
          DistributedSampler.epoch := 0;
          DistributedSampler.drop_last := false;
          DistributedSampler.num_samples := 1;
          DistributedSampler.total_size := 2;
          DistributedSampler.shuffle := false;
          DistributedSampler.seed := 0 |};
     DistributedSamplerWrapper.dataset := DatasetFromSampler.__init__;
     DistributedSamplerWrapper.sampler := two_batches |}.

(** [DistributedSamplerWrapper(short_snapshot, num_replicas=1, rank=0,
    shuffle=False)]: the one shard is given the three declared positions. *)
Definition whole_of_short : DistributedSamplerWrapper.t FixedSampler :=
  {| DistributedSamplerWrapper.super :=
       {| DistributedSampler.num_replicas := 1;
          DistributedSampler.rank := 0;
          DistributedSampler.epoch := 0;
          DistributedSampler.drop_last := false;
          DistributedSampler.num_samples := 3;
          DistributedSampler.total_size := 3;
          DistributedSampler.shuffle := false;
          DistributedSampler.seed := 0 |};
     DistributedSamplerWrapper.dataset := DatasetFromSampler.__init__;
     DistributedSamplerWrapper.sampler := short_snapshot |}.

(** [RandomSamplerWrapper(one_batch)]. *)
Definition reshuffled_one : RandomSamplerWrapper.t FixedSampler :=
  {| RandomSamplerWrapper.data_source := DatasetFromSampler.__init__;
     RandomSamplerWrapper.dataset := None;
     RandomSamplerWrapper.sampler := one_batch |}.

(** Four items, of the tokens 2, 1, 3 and 2. *)
Definition four_tokens : list Item :=
  [ {| item_frames := 2; item_lang := 2 |};
    {| item_frames := 1; item_lang := 1 |};
    {| item_frames := 10; item_lang := 3 |};
    {| item_frames := 2; item_lang := 2 |} ].

(** [DistributedSamplerWrapper(sampler, num_replicas=1, rank=0,
    shuffle=False)] over a shuffling [ByFrameCountSampler] of two items of
    cost 1 and budget 1, as its constructor leaves it. *)
Definition whole_of_shuffled : DistributedSamplerWrapper.t ByFrameCountSampler.t :=
  {| DistributedSamplerWrapper.super :=
       {| DistributedSampler.num_replicas := 1;
          DistributedSampler.rank := 0;
          DistributedSampler.epoch := 0;
          DistributedSampler.drop_last := false;
          DistributedSampler.num_samples := 2;
          DistributedSampler.total_size := 2;
          DistributedSampler.shuffle := false;
          DistributedSampler.seed := 0 |};
     DistributedSamplerWrapper.dataset := DatasetFromSampler.__init__;
     DistributedSamplerWrapper.sampler :=
       @ByFrameCountSampler.__init__ flip_randperm (items_of_costs [1; 1]) 1 true 0 |}.

(** ** Vocabulary of the properties *)

(** The order [np.lexsort] sorts by, as a relation on indices. *)
Definition key_leP (tiebreak : list nat) (primary : list Z) (i j : nat) : Prop :=
  np.key_le tiebreak primary i j = true.

(** The total cost of a batch. *)
Definition total_cost (cost : nat -> Z) (b : Batch) : Z :=
  fold_right Z.add 0 (map cost b).

(** The sampler and the view right after the sampler's output has been
    materialized. *)
Definition materialized {S : Type} {SS : Sampler S} (sampler : S)
  : S * DatasetFromSampler.t :=
  (snd (py_list sampler),
   {| DatasetFromSampler.sampler_list := Some (fst (py_list sampler)) |}).

(** The language token of the item of index [k]. *)
Definition lang_of (d : list Item) (k : nat) : Z :=
  item_lang (nth k d {| item_frames := 0; item_lang := 0 |}).

(** A batch list is grouped by category when every batch holds items of one
    language token and a batch never follows one of a greater token. *)
Definition by_category (lang : nat -> Z) (L : list Batch) : Prop :=
  Forall (fun b => forall x y, In x b -> In y b -> lang x = lang y) L
  /\ StronglySorted
       (fun b1 b2 => forall x y, In x b1 -> In y b2 -> lang x <= lang y) L.

(** The frame count of the item of index [k]. *)
Definition cost_of (d : list Item) (k : nat) : Z :=
  item_frames (nth k d {| item_frames := 0; item_lang := 0 |}).

(** Whether the item of index [k] has a language token the partitioned
    sampler batches. *)
Definition lang_in_range (m : Z) (d : list Item) (k : nat) : bool :=
  (2 <=? lang_of d k) && (lang_of d k <=? m).

(** * Properties *)

(** ** Lists *)

Lemma map_nth_seq_id {A : Type} (l : list A) (d : A) :
  map (fun i => nth i l d) (seq 0 (length l)) = l.
Proof.
  induction l as [|a l IH]; [reflexivity|].
  cbn [length seq map nth]. f_equal.
  rewrite <- seq_shift, map_map. exact IH.
Qed.

Lemma StronglySorted_app {A : Type} (R : A -> A -> Prop) (l1 l2 : list A) :
  StronglySorted R l1 -> StronglySorted R l2 ->
  (forall a b, In a l1 -> In b l2 -> R a b) ->
  StronglySorted R (l1 ++ l2).
Proof.
  induction l1 as [|a l1 IH]; intros H1 H2 H12; [exact H2|].
  apply StronglySorted_inv in H1 as [H1 Ha]. cbn. constructor.
  - apply IH; auto. intros x y Hx Hy. apply H12; [now right|assumption].
  - apply Forall_app. split; [assumption|].
    apply Forall_forall. intros y Hy. apply H12; [now left|assumption].
Qed.

Lemma StronglySorted_rev {A : Type} (R : A -> A -> Prop) (l : list A) :
  StronglySorted R l -> StronglySorted (fun a b => R b a) (rev l).
Proof.
  induction 1 as [|a l Hl IH Ha]; cbn; [constructor|].
  apply StronglySorted_app; [assumption|repeat constructor|].
  intros x y Hx [<-|[]]. apply in_rev in Hx.
  rewrite Forall_forall in Ha. now apply Ha.
Qed.

Lemma StronglySorted_weaken {A : Type} (R R' : A -> A -> Prop) (l : list A) :
  (forall a b, In a l -> In b l -> a <> b -> R a b -> R' a b) ->
  NoDup l -> StronglySorted R l -> StronglySorted R' l.
Proof.
  intros HR Hnd Hs. induction Hs as [|a l Hl IH Ha]; [constructor|].
  apply NoDup_cons_iff in Hnd as [Hnotin Hnd]. constructor.
  - apply IH; [|assumption]. intros x y Hx Hy. apply HR; now right.
  - rewrite Forall_forall in *. intros y Hy. apply HR; auto.
    + now left.
    + now right.
    + intros ->. contradiction.
Qed.

Lemma StronglySorted_map {A B : Type} (R : B -> B -> Prop) (f : A -> B) (l : list A) :
  StronglySorted (fun a b => R (f a) (f b)) l -> StronglySorted R (map f l).
Proof.
  induction 1 as [|a l Hl IH Ha]; cbn; constructor; [assumption|].
  rewrite Forall_forall in *. intros y Hy.
  apply in_map_iff in Hy as (x & <- & Hx). now apply Ha.
Qed.

(** Two ascending lists with the same elements are the same list. *)
Lemma sorted_perm_eq (l1 l2 : list Z) :
  StronglySorted Z.le l1 -> StronglySorted Z.le l2 -> Permutation l1 l2 -> l1 = l2.
Proof.
  revert l2. induction l1 as [|a l1 IH]; intros l2 H1 H2 HP.
  - apply Permutation_nil in HP. now subst.
  - destruct l2 as [|b l2].
    + symmetry in HP. now apply Permutation_nil in HP.
    + apply StronglySorted_inv in H1 as [H1 Ha].
      apply StronglySorted_inv in H2 as [H2 Hb].
      rewrite Forall_forall in Ha, Hb.
      assert (a = b) as <-.
      { assert (In a (b :: l2)) as Hin1
          by (eapply Permutation_in; [exact HP|now left]).
        assert (In b (a :: l1)) as Hin2
          by (eapply Permutation_in; [symmetry; exact HP|now left]).
        destruct Hin1 as [->|Hin1]; [reflexivity|].
        destruct Hin2 as [->|Hin2]; [reflexivity|].
        apply Hb in Hin1. apply Ha in Hin2. lia. }
      f_equal. apply IH; auto. now apply Permutation_cons_inv in HP.
Qed.

(** A flattened list without repetition places an element in one block. *)
Lemma NoDup_concat_unique {A : Type} (L : list (list A)) (x : A) (i k : nat) :
  NoDup (concat L) ->
  In x (nth i L []) -> In x (nth k L []) -> i = k.
Proof.
  revert i k. induction L as [|b L IH]; intros i k Hnd Hi Hk.
  - destruct i; contradiction.
  - cbn in Hnd. pose proof (NoDup_app_remove_l _ _ Hnd) as HndL.
    assert (forall j, In x (nth j L []) -> In x (concat L)) as Hin.
    { intros j Hj. apply in_concat. exists (nth j L []). split; [|assumption].
      destruct (Nat.lt_ge_cases j (length L)) as [Hlt|Hge].
      - now apply nth_In.
      - rewrite nth_overflow in Hj by assumption. contradiction. }
    assert (forall y, In y b -> In y (concat L) -> False) as Hdisj.
    { intros y Hb HL. clear - Hnd Hb HL.
      induction b as [|c b IHb]; [contradiction|].
      cbn in Hnd. apply NoDup_cons_iff in Hnd as [Hc Hnd].
      destruct Hb as [->|Hb]; [apply Hc, in_or_app; now right|auto]. }
    destruct i as [|i], k as [|k]; cbn in Hi, Hk.
    + reflexivity.
    + exfalso. eapply Hdisj; eauto.
    + exfalso. eapply Hdisj; eauto.
    + f_equal. now apply IH.
Qed.

(** ** [np.lexsort] *)

Section LexsortFacts.
Variables (tiebreak : list nat) (primary : list Z).

Lemma key_le_total (i j : nat) : key_leP tiebreak primary i j \/ key_leP tiebreak primary j i.
Proof.
  unfold key_leP, np.key_le.
  destruct (Z.lt_total (nth i primary 0) (nth j primary 0)) as [H|[H|H]].
  - left. apply orb_true_iff. left. now apply Z.ltb_lt.
  - destruct (Nat.le_ge_cases (nth i tiebreak 0%nat) (nth j tiebreak 0%nat)) as [Ht|Ht].
    + left. apply orb_true_iff. right. apply andb_true_iff.
      split; [now apply Z.eqb_eq|now apply Nat.leb_le].
    + right. apply orb_true_iff. right. apply andb_true_iff.
      split; [now apply Z.eqb_eq|now apply Nat.leb_le].
  - right. apply orb_true_iff. left. now apply Z.ltb_lt.
Qed.

Lemma key_le_spec (i j : nat) :
  key_leP tiebreak primary i j <->
  nth i primary 0 < nth j primary 0
  \/ (nth i primary 0 = nth j primary 0
      /\ (nth i tiebreak 0 <= nth j tiebreak 0)%nat).
Proof.
  unfold key_leP, np.key_le.
  rewrite orb_true_iff, andb_true_iff, Z.ltb_lt, Z.eqb_eq, Nat.leb_le.
  reflexivity.
Qed.

Lemma key_le_trans (i j k : nat) :
  key_leP tiebreak primary i j -> key_leP tiebreak primary j k ->
  key_leP tiebreak primary i k.
Proof. rewrite !key_le_spec. lia. Qed.

Lemma insert_perm (i : nat) (l : list nat) :
  Permutation (np.insert tiebreak primary i l) (i :: l).
Proof.
  induction l as [|j l IH]; cbn; [reflexivity|].
  destruct (np.key_le tiebreak primary i j); [reflexivity|].
  rewrite IH. apply perm_swap.
Qed.

Lemma insert_sorted (i : nat) (l : list nat) :
  StronglySorted (key_leP tiebreak primary) l ->
  StronglySorted (key_leP tiebreak primary) (np.insert tiebreak primary i l).
Proof.
  induction 1 as [|j l Hl IH Hj]; cbn; [repeat constructor|].
  destruct (np.key_le tiebreak primary i j) eqn:Hij.
  - constructor; [now constructor|]. constructor; [exact Hij|].
    eapply Forall_impl; [|exact Hj]. intros k Hjk. now apply key_le_trans with j.
  - constructor; [assumption|].
    eapply Permutation_Forall; [symmetry; apply insert_perm|].
    constructor; [|assumption].
    destruct (key_le_total i j) as [H|H]; [unfold key_leP in H; congruence|exact H].
Qed.

Lemma lexsort_perm :
  Permutation (np.lexsort tiebreak primary) (seq 0 (length primary)).
Proof.
  unfold np.lexsort. induction (seq 0 (length primary)) as [|i l IH]; cbn.
  - reflexivity.
  - rewrite insert_perm. now constructor.
Qed.

Lemma lexsort_sorted : StronglySorted (key_leP tiebreak primary) (np.lexsort tiebreak primary).
Proof.
  unfold np.lexsort. induction (seq 0 (length primary)) as [|i l IH]; cbn.
  - constructor.
  - now apply insert_sorted.
Qed.

(** The costs along the sorted order ascend, whatever the tiebreak. *)
Lemma lexsort_costs_sorted :
  StronglySorted Z.le (map (fun i => nth i primary 0) (np.lexsort tiebreak primary)).
Proof.
  apply StronglySorted_map.
  eapply StronglySorted_weaken with (R := key_leP tiebreak primary).
  - intros a b _ _ _ Hab. apply key_le_spec in Hab. lia.
  - eapply Permutation_NoDup; [symmetry; apply lexsort_perm|apply seq_NoDup].
  - apply lexsort_sorted.
Qed.

Lemma lexsort_costs_perm :
  Permutation (map (fun i => nth i primary 0) (np.lexsort tiebreak primary)) primary.
Proof.
  rewrite lexsort_perm. now rewrite map_nth_seq_id.
Qed.

Lemma lexsort_in (i : nat) :
  In i (np.lexsort tiebreak primary) <-> (i < length primary)%nat.
Proof.
  split; intros H.
  - eapply Permutation_in in H; [|apply lexsort_perm]. apply in_seq in H. lia.
  - eapply Permutation_in; [symmetry; apply lexsort_perm|]. apply in_seq. lia.
Qed.
End LexsortFacts.

(** The cost sequence of the sorted order does not depend on the tiebreak. *)
Lemma lexsort_costs_tiebreak (t1 t2 : list nat) (p : list Z) :
  map (fun i => nth i p 0) (np.lexsort t1 p)
  = map (fun i => nth i p 0) (np.lexsort t2 p).
Proof.
  apply sorted_perm_eq; try apply lexsort_costs_sorted.
  rewrite !lexsort_costs_perm. reflexivity.
Qed.

(** ** [data_utils.batch_by_size] *)

Lemma total_cost_app (cost : nat -> Z) (b1 b2 : Batch) :
  total_cost cost (b1 ++ b2) = total_cost cost b1 + total_cost cost b2.
Proof.
  unfold total_cost. induction b1 as [|x b1 IH]; cbn; [reflexivity|].
  fold Batch in *. rewrite IH. lia.
Qed.

Section BatchFacts.
Variables (cost : nat -> Z) (budget : Z).

Lemma batch_loop_concat (indices : list nat) (cur : Batch) (c : Z) :
  concat (data_utils.batch_loop cost budget indices cur c) = cur ++ indices.
Proof.
  revert cur c. induction indices as [|i rest IH]; intros cur c; cbn.
  - destruct cur; cbn; now rewrite ?app_nil_r.
  - destruct cur as [|x cur]; [now rewrite IH|].
    destruct (c + cost i <=? budget); cbn; rewrite IH; cbn.
    + now rewrite <- app_assoc.
    + reflexivity.
Qed.

Lemma batch_loop_nonempty (indices : list nat) (cur : Batch) (c : Z) :
  Forall (fun b => b <> []) (data_utils.batch_loop cost budget indices cur c).
Proof.
  revert cur c. induction indices as [|i rest IH]; intros cur c; cbn.
  - destruct cur; constructor; [discriminate|constructor].
  - destruct cur as [|x cur]; [apply IH|].
    destruct (c + cost i <=? budget); [apply IH|].
    constructor; [discriminate|apply IH].
Qed.

Lemma batch_loop_budget (indices : list nat) (cur : Batch) (c : Z) :
  Forall (fun i => cost i <= budget) indices ->
  (cur <> [] -> c = total_cost cost cur /\ c <= budget) ->
  Forall (fun b => total_cost cost b <= budget)
    (data_utils.batch_loop cost budget indices cur c).
Proof.
  revert cur c. induction indices as [|i rest IH]; intros cur c Hall Hcur; cbn.
  - destruct cur as [|x cur]; constructor; [|constructor].
    destruct Hcur as [-> ?]; [discriminate|assumption].
  - apply Forall_cons_iff in Hall as [Hi Hall].
    assert (total_cost cost [i] = cost i) as Hone by (cbn; lia).
    destruct cur as [|x cur].
    + apply IH; [assumption|]. intros _. now rewrite Hone.
    + destruct Hcur as [-> Hle]; [discriminate|].
      destruct (total_cost cost (x :: cur) + cost i <=? budget) eqn:Hfit.
      * apply IH; [assumption|]. intros _. apply Z.leb_le in Hfit.
        rewrite total_cost_app, Hone. now split.
      * constructor; [assumption|].
        apply IH; [assumption|]. intros _. now rewrite Hone.
Qed.
End BatchFacts.

(** The number of batches is a function of the costs met along the order. *)
Lemma batch_loop_length_costs (cost : nat -> Z) (budget : Z)
    (o1 o2 : list nat) (cur1 cur2 : Batch) (c : Z) :
  map cost o1 = map cost o2 ->
  (cur1 = [] <-> cur2 = []) ->
  length (data_utils.batch_loop cost budget o1 cur1 c)
  = length (data_utils.batch_loop cost budget o2 cur2 c).
Proof.
  revert o2 cur1 cur2 c.
  induction o1 as [|i o1 IH]; intros [|k o2] cur1 cur2 c Hmap Hcur;
    try discriminate; cbn.
  - destruct cur1, cur2; try reflexivity.
    + destruct Hcur as [Hcur _]. specialize (Hcur eq_refl). discriminate.
    + destruct Hcur as [_ Hcur]. specialize (Hcur eq_refl). discriminate.
  - cbn in Hmap. injection Hmap as Hik Hmap. rewrite <- Hik.
    assert (forall a b : nat, ([a] = [] :> Batch) <-> ([b] = [] :> Batch)) as Hone
      by (intros; split; discriminate).
    destruct cur1 as [|x1 cur1], cur2 as [|x2 cur2].
    + apply IH; auto.
    + destruct Hcur as [Hcur _]. specialize (Hcur eq_refl). discriminate.
    + destruct Hcur as [_ Hcur]. specialize (Hcur eq_refl). discriminate.
    + destruct (c + cost i <=? budget); cbn.
      * apply IH; [assumption|]. split; intros H; destruct cur1, cur2; discriminate.
      * f_equal. apply IH; auto.
Qed.

(** ** [ByFrameCountSampler] *)

Section ByFrameCountSamplerFacts.
Context {RP : TorchRandperm}.
Import ByFrameCountSampler.

(** The fields after construction and any number of [set_epoch] calls. *)
Lemma BFCS_fields (d : list Item) (budget : Z) (sh : bool) (sd e : Z) :
  let self := set_epoch (__init__ d budget sh sd) e in
  dataset self = d /\ sizes self = map item_frames d
  /\ max_frames_per_gpu self = budget /\ shuffle self = sh
  /\ seed self = sd /\ epoch self = e.
Proof. cbn. repeat split. Qed.

Lemma BFCS_get_indices_perm (self : t) :
  Permutation (_get_indices self) (seq 0 (length (sizes self))).
Proof.
  unfold _get_indices. rewrite <- Permutation_rev. apply lexsort_perm.
Qed.

Lemma BFCS_iter_concat (self : t) :
  concat (__iter__ self) = _get_indices self.
Proof.
  unfold __iter__, data_utils.batch_by_size. now rewrite batch_loop_concat.
Qed.

(** The costs met along the order: the sizes in descending order, whatever
    the epoch and the shuffle. *)
Lemma BFCS_costs_along_order (self1 self2 : t) :
  sizes self1 = sizes self2 ->
  map (fun i => nth i (sizes self1) 0) (_get_indices self1)
  = map (fun i => nth i (sizes self2) 0) (_get_indices self2).
Proof.
  intros Hs. unfold _get_indices. rewrite <- Hs, !map_rev. f_equal.
  apply lexsort_costs_tiebreak.
Qed.

Lemma BFCS_num_batches (d : list Item) (budget : Z) (sh : bool) (sd e : Z) :
  let self := set_epoch (__init__ d budget sh sd) e in
  length (__iter__ self) = __len__ self.
Proof.
  cbn. unfold __iter__, data_utils.batch_by_size.
  apply batch_loop_length_costs; [|reflexivity].
  apply (BFCS_costs_along_order
           (set_epoch (__init__ d budget sh sd) e)
           (Build_t d budget (map item_frames d) sh sd 0 0)).
  reflexivity.
Qed.
End ByFrameCountSamplerFacts.

(** * The claims *)

Section SingleLanguage.
Context {RP : TorchRandperm}.
Import ByFrameCountSampler.

(** C1 (amended): without shuffling, [_get_indices] returns a permutation of
    the item indices in descending order of cost, and items of equal cost
    come in descending order of index (the ascending sort by (cost, index)
    is reversed whole).  For the costs [3,1,4,1,5] it returns
    [4,2,0,3,1]; the grouping cuts the order it is given into consecutive
    batches, so the batches of budget 5, read one after the other, are
    4, 2, 0, 3, 1: item 3 comes before item 1. *)
Theorem get_indices_unshuffled_order (d : list Item) (budget sd e : Z) :
  let self := set_epoch (__init__ d budget false sd) e in
  let cost := fun i => nth i (map item_frames d) 0 in
  Permutation (_get_indices self) (seq 0 (length d))
  /\ StronglySorted
       (fun i j => cost j < cost i \/ (cost j = cost i /\ (j < i)%nat))
       (_get_indices self)
  /\ _get_indices (__init__ (items_of_costs [3; 1; 4; 1; 5]) 5 false 0)
     = [4; 2; 0; 3; 1]%nat
  /\ concat (__iter__ self) = _get_indices self
  /\ concat (__iter__ (__init__ (items_of_costs [3; 1; 4; 1; 5]) 5 false 0))
     = [4; 2; 0; 3; 1]%nat.
Proof.
  intros self cost.
  split; [|split; [|split; [reflexivity|split;
    [apply BFCS_iter_concat|now rewrite BFCS_iter_concat]]]].
  - rewrite BFCS_get_indices_perm. subst self. cbn [sizes set_epoch __init__].
    now rewrite length_map.
  - subst self. unfold _get_indices. cbn [shuffle sizes dataset set_epoch __init__].
    apply (StronglySorted_rev
             (fun a b => cost a < cost b \/ (cost a = cost b /\ (a < b)%nat))).
    apply StronglySorted_weaken
      with (R := key_leP (seq 0 (length d)) (map item_frames d)).
    + intros a b Ha Hb Hab Hle. apply key_le_spec in Hle.
      apply lexsort_in in Ha, Hb. rewrite length_map in Ha, Hb.
      rewrite !seq_nth in Hle by assumption. subst cost. cbn beta. lia.
    + eapply Permutation_NoDup; [symmetry; apply lexsort_perm|apply seq_NoDup].
    + apply lexsort_sorted.
Qed.

(** C2: one full iteration yields batches whose concatenation is a
    permutation of [0 .. N-1], so that every index lies in exactly one batch
    (none twice, none missing, no batch empty); and when no item costs more
    than the budget, no batch does.  The grouping is the greedy first-fit
    primitive of the specification. *)
Theorem iter_covers_within_budget (d : list Item) (budget : Z) (sh : bool)
    (sd e : Z) :
  let self := set_epoch (__init__ d budget sh sd) e in
  let cost := fun i => nth i (map item_frames d) 0 in
  Permutation (concat (__iter__ self)) (seq 0 (length d))
  /\ (forall x i k, In x (nth i (__iter__ self) []) ->
                    In x (nth k (__iter__ self) []) -> i = k)
  /\ Forall (fun b => b <> []) (__iter__ self)
  /\ (Forall (fun item => item_frames item <= budget) d ->
      Forall (fun b => total_cost cost b <= budget) (__iter__ self)).
Proof.
  intros self cost.
  assert (Permutation (concat (__iter__ self)) (seq 0 (length d))) as HP.
  { rewrite BFCS_iter_concat, BFCS_get_indices_perm. subst self.
    cbn [sizes set_epoch __init__]. now rewrite length_map. }
  split; [exact HP|split; [|split]].
  - intros x i k. apply NoDup_concat_unique.
    eapply Permutation_NoDup; [symmetry; exact HP|apply seq_NoDup].
  - apply batch_loop_nonempty.
  - intros Hfit. unfold __iter__, data_utils.batch_by_size.
    apply batch_loop_budget; [|intros H; now contradiction H].
    apply Forall_forall. intros i Hi.
    eapply Permutation_in in Hi; [|apply BFCS_get_indices_perm].
    apply in_seq in Hi. subst self. cbn [sizes set_epoch __init__] in *.
    rewrite length_map in Hi.
    rewrite Forall_forall in Hfit.
    change (nth i (map item_frames d) 0)
      with (nth i (map item_frames d) (item_frames (Build_Item 0 0))).
    rewrite map_nth. apply Hfit, nth_In. lia.
Qed.

(** C3: with shuffling, [_get_indices] is a function of the item costs and
    of [seed + epoch] alone: two samplers over collections of the same costs
    whose seed and epoch have the same sum return the same order, whatever
    else differs, and that order is a permutation of [0 .. N-1].  The
    generator is created inside the call and seeded there, and iterating
    the sampler assigns none of its attributes. *)
Theorem get_indices_deterministic (d1 d2 : list Item)
    (budget1 budget2 sd1 sd2 e1 e2 : Z) :
  map item_frames d1 = map item_frames d2 ->
  sd1 + e1 = sd2 + e2 ->
  let self1 := set_epoch (__init__ d1 budget1 true sd1) e1 in
  let self2 := set_epoch (__init__ d2 budget2 true sd2) e2 in
  _get_indices self1 = _get_indices self2
  /\ Permutation (_get_indices self1) (seq 0 (length d1))
  /\ snd (py_list self1) = self1.
Proof.
  intros Hcosts Hseed self1 self2. split; [|split; [|reflexivity]].
  - subst self1 self2. unfold _get_indices.
    cbn [shuffle sizes dataset seed epoch set_epoch __init__].
    rewrite Hcosts, Hseed.
    replace (length d1) with (length d2); [reflexivity|].
    rewrite <- (length_map item_frames d2), <- Hcosts. apply length_map.
  - rewrite BFCS_get_indices_perm. subst self1. cbn [sizes set_epoch __init__].
    now rewrite length_map.
Qed.
End SingleLanguage.

(** ** [DatasetFromSampler] and [itemgetter] *)

Section ViewFacts.
Context {S : Type} {SS : Sampler S}.
Import DatasetFromSampler.

Lemma getitem_fresh (sampler : S) (index : Z) :
  __getitem__ sampler __init__ index
  = (py_getitem (fst (py_list sampler)) index, materialized sampler).
Proof.
  unfold __getitem__, materialized. cbn. now destruct (py_list sampler).
Qed.

Lemma getitem_cached (sampler : S) (l : list Batch) (index : Z) :
  __getitem__ sampler {| sampler_list := Some l |} index
  = (py_getitem l index, (sampler, {| sampler_list := Some l |})).
Proof. reflexivity. Qed.

Lemma getitems_cached (sampler : S) (l : list Batch) (items : list Z) :
  snd (getitems sampler {| sampler_list := Some l |} items)
  = (sampler, {| sampler_list := Some l |}).
Proof.
  induction items as [|i rest IH]; cbn; [reflexivity|].
  destruct (py_getitem l i); [|reflexivity].
  destruct (getitems sampler {| sampler_list := Some l |} rest) as [[bs|e] st];
    exact IH.
Qed.

Lemma getitems_fresh (sampler : S) (items : list Z) :
  items <> [] -> snd (getitems sampler __init__ items) = materialized sampler.
Proof.
  destruct items as [|i rest]; [congruence|]. intros _.
  cbn [getitems]. rewrite getitem_fresh. unfold materialized.
  destruct (py_getitem (fst (py_list sampler)) i); [|reflexivity].
  pose proof (getitems_cached (snd (py_list sampler)) (fst (py_list sampler)) rest)
    as Hrest.
  destruct (getitems (snd (py_list sampler))
              {| sampler_list := Some (fst (py_list sampler)) |} rest)
    as [[bs|e] st]; exact Hrest.
Qed.

Lemma iter_itemgetter_fresh (sampler : S) (items : list Z) :
  items <> [] -> snd (iter_itemgetter sampler __init__ items) = materialized sampler.
Proof.
  intros Hne. destruct items as [|i [|k rest]]; [congruence| |].
  - unfold iter_itemgetter. rewrite getitem_fresh.
    now destruct (py_getitem (fst (py_list sampler)) i).
  - unfold iter_itemgetter.
    pose proof (getitems_fresh sampler (i :: k :: rest) Hne) as Hall.
    destruct (getitems sampler __init__ (i :: k :: rest)) as [[bs|e] st];
      exact Hall.
Qed.
End ViewFacts.

Section Wrappers.
Context {RP : TorchRandperm} {DG : TorchDefaultGenerator}.
Context {S : Type} {SS : Sampler S}.

(** C10 (amended): every call of [__iter__], of either wrapper, starts from
    a fresh view, so that a snapshot kept from an earlier call plays no
    part; and every call whose index list is not empty materializes the
    wrapped sampler's output exactly once: the wrapped sampler is left as
    one [list(sampler)] leaves it and the wrapper holds that snapshot.  A
    call that gets no index reads no element: the sampler is not iterated
    and the view stays unmaterialized. *)
Theorem iter_rematerializes (w : DistributedSamplerWrapper.t S)
    (rw : RandomSamplerWrapper.t S) (g : Z) (old : DatasetFromSampler.t)
    (old' : option DatasetFromSampler.t) :
  (DistributedSamplerWrapper.__iter__
     {| DistributedSamplerWrapper.super := DistributedSamplerWrapper.super w;
        DistributedSamplerWrapper.dataset := old;
        DistributedSamplerWrapper.sampler := DistributedSamplerWrapper.sampler w |}
   = DistributedSamplerWrapper.__iter__ w
   /\ (let w' := snd (DistributedSamplerWrapper.__iter__ w) in
       (DistributedSamplerWrapper.sampler w', DistributedSamplerWrapper.dataset w')
       = match DistributedSampler.__iter__ (DistributedSamplerWrapper.super w)
                 (py_len (DistributedSamplerWrapper.sampler w)) with
         | Ok (_ :: _) => materialized (DistributedSamplerWrapper.sampler w)
         | _ => (DistributedSamplerWrapper.sampler w, DatasetFromSampler.__init__)
         end))
  /\ (RandomSamplerWrapper.__iter__ g
        {| RandomSamplerWrapper.data_source := RandomSamplerWrapper.data_source rw;
           RandomSamplerWrapper.dataset := old';
           RandomSamplerWrapper.sampler := RandomSamplerWrapper.sampler rw |}
      = RandomSamplerWrapper.__iter__ g rw
      /\ (let w' := snd (fst (RandomSamplerWrapper.__iter__ g rw)) in
          (RandomSamplerWrapper.sampler w', RandomSamplerWrapper.dataset w')
          = match fst (RandomSampler.__iter__ g
                         (py_len (RandomSamplerWrapper.sampler rw))) with
            | Ok (_ :: _) =>
                (fst (materialized (RandomSamplerWrapper.sampler rw)),
                 Some (snd (materialized (RandomSamplerWrapper.sampler rw))))
            | _ => (RandomSamplerWrapper.sampler rw, Some DatasetFromSampler.__init__)
            end)).
Proof.
  split; split; try reflexivity.
  - unfold DistributedSamplerWrapper.__iter__, DatasetFromSampler.__len__.
    destruct (DistributedSampler.__iter__ (DistributedSamplerWrapper.super w)
                (py_len (DistributedSamplerWrapper.sampler w)))
      as [[|i idx]|err]; try reflexivity.
    pose proof (iter_itemgetter_fresh (DistributedSamplerWrapper.sampler w)
                  (map Z.of_nat (i :: idx)) ltac:(discriminate)) as Hfresh.
    destruct (iter_itemgetter (DistributedSamplerWrapper.sampler w)
                DatasetFromSampler.__init__ (map Z.of_nat (i :: idx)))
      as [r [s' d']].
    cbn in *. now rewrite <- Hfresh.
  - unfold RandomSamplerWrapper.__iter__, DatasetFromSampler.__len__.
    destruct (RandomSampler.__iter__ g (py_len (RandomSamplerWrapper.sampler rw)))
      as [[[|i idx]|err] g']; try reflexivity.
    pose proof (iter_itemgetter_fresh (RandomSamplerWrapper.sampler rw)
                  (map Z.of_nat (i :: idx)) ltac:(discriminate)) as Hfresh.
    destruct (iter_itemgetter (RandomSamplerWrapper.sampler rw)
                DatasetFromSampler.__init__ (map Z.of_nat (i :: idx)))
      as [r [s' d']].
    cbn in *. now injection Hfresh as -> ->.
Qed.
End Wrappers.

(** ** [ByFrameCountSamplerMultilang] *)

Lemma nth_map_in_range {A B : Type} (F : A -> B) (l : list A) (j : nat) (d : A) (d' : B) :
  (j < length l)%nat -> nth j (map F l) d' = F (nth j l d).
Proof.
  intros Hj. rewrite (nth_indep _ d' (F d)) by now rewrite length_map.
  apply map_nth.
Qed.

Lemma combine_seq_in {A : Type} (l : list A) (a k : nat) (x : A) :
  In (k, x) (combine (seq a (length l)) l)
  <-> (a <= k)%nat /\ nth_error l (k - a) = Some x.
Proof.
  revert a. induction l as [|y l IH]; intros a; cbn [length seq combine].
  - split; [intros []|]. intros [_ H]. now destruct (k - a)%nat.
  - cbn [In]. rewrite IH. split.
    + intros [H|[Hle H]].
      * injection H as <- <-. rewrite Nat.sub_diag. now split.
      * split; [lia|]. now replace (k - a)%nat with (S (k - S a)) by lia.
    + intros [Hle H]. destruct (Nat.eq_dec a k) as [<-|Hne].
      * rewrite Nat.sub_diag in H. left. cbn in H. congruence.
      * right. split; [lia|].
        now replace (k - a)%nat with (S (k - S a)) in H by lia.
Qed.

Lemma enumerate_where_in {A : Type} (p : A -> bool) (l : list A) (k : nat) :
  In k (enumerate_where p l)
  <-> exists x, nth_error l k = Some x /\ p x = true.
Proof.
  unfold enumerate_where. rewrite in_map_iff. split.
  - intros ([k' x] & Hk & Hin). cbn in Hk. subst k'.
    apply filter_In in Hin as [Hin Hp]. apply combine_seq_in in Hin as [_ Hin].
    rewrite Nat.sub_0_r in Hin. now exists x.
  - intros (x & Hx & Hp). exists (k, x). split; [reflexivity|].
    apply filter_In. split; [|exact Hp]. apply combine_seq_in.
    rewrite Nat.sub_0_r. split; [lia|exact Hx].
Qed.

Lemma enumerate_where_length {A : Type} (p : A -> bool) (l : list A) :
  length (enumerate_where p l) = length (filter p l).
Proof.
  unfold enumerate_where. rewrite length_map. generalize 0%nat.
  induction l as [|x l IH]; intros a; cbn [length seq combine filter snd];
    [reflexivity|].
  destruct (p x); cbn [length]; now rewrite IH.
Qed.

Lemma lang_range_in (m j : Z) :
  In j (ByFrameCountSamplerMultilang.lang_range m) <-> 2 <= j <= m.
Proof.
  unfold ByFrameCountSamplerMultilang.lang_range. rewrite in_map_iff. split.
  - intros (n & <- & Hn). apply in_seq in Hn. lia.
  - intros Hj. exists (Z.to_nat j). split; [lia|]. apply in_seq. lia.
Qed.

Lemma lang_range_nth (m : Z) (j : nat) :
  (j < length (ByFrameCountSamplerMultilang.lang_range m))%nat ->
  nth j (ByFrameCountSamplerMultilang.lang_range m) 0 = Z.of_nat (2 + j).
Proof.
  unfold ByFrameCountSamplerMultilang.lang_range. rewrite length_map, length_seq.
  intros Hj. rewrite (nth_map_in_range Z.of_nat _ _ 0%nat) by now rewrite length_seq.
  now rewrite seq_nth.
Qed.

Lemma seq_strongly_sorted (a n : nat) :
  StronglySorted (fun i j => (i < j)%nat) (seq a n).
Proof.
  revert a. induction n as [|n IH]; intros a; cbn; constructor; [apply IH|].
  apply Forall_forall. intros j Hj. apply in_seq in Hj. lia.
Qed.

Lemma concat_flat_map {A B : Type} (f : A -> list (list B)) (l : list A) :
  concat (flat_map f l) = flat_map (fun x => concat (f x)) l.
Proof.
  induction l as [|x l IH]; cbn; [reflexivity|]. now rewrite concat_app, IH.
Qed.

Lemma flat_map_perm {A B : Type} (f g : A -> list B) (l : list A) :
  (forall x, In x l -> Permutation (f x) (g x)) ->
  Permutation (flat_map f l) (flat_map g l).
Proof.
  induction l as [|x l IH]; intros H; cbn; [reflexivity|].
  apply Permutation_app; [apply H; now left|].
  apply IH. intros y Hy. apply H. now right.
Qed.

Lemma flat_map_by_category (lang : nat -> Z) (f : nat -> list Batch)
    (c : nat -> Z) (l : list nat) :
  (forall j, In j l -> Forall (Forall (fun x => lang x = c j)) (f j)) ->
  StronglySorted (fun i j => c i <= c j) l ->
  by_category lang (flat_map f l).
Proof.
  intros Hhom Hsorted. split.
  - apply Forall_forall. intros b Hb. apply in_flat_map in Hb as (j & Hj & Hb).
    specialize (Hhom j Hj). rewrite Forall_forall in Hhom.
    specialize (Hhom b Hb). rewrite Forall_forall in Hhom.
    intros x y Hx Hy. now rewrite (Hhom x Hx), (Hhom y Hy).
  - induction Hsorted as [|j l Hl IH Hj]; cbn; [constructor|].
    assert (forall b x, In b (f j) -> In x b -> lang x = c j) as Hfj.
    { intros b x Hb Hx. specialize (Hhom j (or_introl eq_refl)).
      rewrite Forall_forall in Hhom. specialize (Hhom b Hb).
      rewrite Forall_forall in Hhom. now apply Hhom. }
    apply StronglySorted_app.
    + clear - Hfj. induction (f j) as [|b bs IHb]; constructor.
      * apply IHb. intros b' x Hb'. apply Hfj. now right.
      * apply Forall_forall. intros b' Hb' x y Hx Hy.
        rewrite (Hfj b x (or_introl eq_refl) Hx).
        rewrite (Hfj b' y (or_intror Hb') Hy). lia.
    + apply IH. intros k Hk. apply Hhom. now right.
    + intros b1 b2 Hb1 Hb2 x y Hx Hy.
      apply in_flat_map in Hb2 as (k & Hk & Hb2).
      rewrite (Hfj b1 x Hb1 Hx).
      pose proof (Hhom k (or_intror Hk)) as Hhk.
      rewrite Forall_forall in Hhk. specialize (Hhk b2 Hb2).
      rewrite Forall_forall in Hhk. rewrite (Hhk y Hy).
      rewrite Forall_forall in Hj. now apply Hj.
Qed.

Section Multilang.
Context {RP : TorchRandperm}.
Import ByFrameCountSamplerMultilang.

Variables (d : list Item) (budget : Z) (sh : bool) (sd m : Z).

Lemma ML_fields (e : Z) :
  let self := set_epoch (__init__ d budget sh sd m) e in
  dataset_idx self
  = map (fun j => enumerate_where (is_lang j) d) (lang_range m)
  /\ sizes self
     = map (fun j => map item_frames (filter (is_lang j) d)) (lang_range m).
Proof. cbn. now split. Qed.

Lemma ML_partition (e : Z) (j : nat) :
  let self := set_epoch (__init__ d budget sh sd m) e in
  (j < length (lang_range m))%nat ->
  nth j (dataset_idx self) []
  = enumerate_where (is_lang (Z.of_nat (2 + j))) d
  /\ length (nth j (sizes self) []) = length (nth j (dataset_idx self) []).
Proof.
  intros self Hj. destruct (ML_fields e) as [Hidx Hsizes]. fold self in Hidx, Hsizes.
  rewrite Hidx, Hsizes.
  rewrite !(nth_map_in_range _ _ _ 0) by assumption.
  rewrite lang_range_nth by assumption.
  split; [reflexivity|]. now rewrite length_map, enumerate_where_length.
Qed.

Lemma ML_get_indices_in (self : t) (j i : nat) :
  In i (_get_indices self j) <-> (i < length (nth j (sizes self) []))%nat.
Proof.
  unfold _get_indices. rewrite <- in_rev. apply lexsort_in.
Qed.

(** The batches of a partition hold the partition's global indices, each
    once. *)
Lemma ML_batches_of_concat (e : Z) (j : nat) :
  let self := set_epoch (__init__ d budget sh sd m) e in
  (j < length (lang_range m))%nat ->
  Permutation (concat (batches_of self j)) (nth j (dataset_idx self) []).
Proof.
  intros self Hj. destruct (ML_partition e j Hj) as [_ Hlen]. fold self in Hlen.
  unfold batches_of. rewrite <- concat_map.
  unfold data_utils.batch_by_size. rewrite batch_loop_concat. cbn [app].
  unfold _get_indices. rewrite <- Permutation_rev, lexsort_perm, Hlen.
  now rewrite map_nth_seq_id.
Qed.

Lemma ML_batches_of_lang (e : Z) (j : nat) :
  let self := set_epoch (__init__ d budget sh sd m) e in
  (j < length (lang_range m))%nat ->
  Forall (Forall (fun x => lang_of d x = Z.of_nat (2 + j))) (batches_of self j).
Proof.
  intros self Hj. destruct (ML_partition e j Hj) as [Hidx Hlen].
  fold self in Hidx, Hlen. unfold batches_of.
  apply Forall_map, Forall_forall. intros bval Hbval.
  apply Forall_map, Forall_forall. intros bvali Hbvali.
  assert (In bvali (_get_indices self j)) as Hin.
  { replace (_get_indices self j)
      with (concat (data_utils.batch_by_size
                      (fun i => nth i (nth j (sizes self) []) 0)
                      (max_frames_per_gpu self) (_get_indices self j)))
      by (unfold data_utils.batch_by_size; now rewrite batch_loop_concat).
    apply in_concat. now exists bval. }
  apply ML_get_indices_in in Hin. rewrite Hlen in Hin.
  pose proof (nth_In (nth j (dataset_idx self) []) 0%nat Hin) as Hmem.
  rewrite Hidx in Hmem at 2. apply enumerate_where_in in Hmem as (x & Hx & Hp).
  unfold lang_of. erewrite nth_error_nth by exact Hx.
  unfold is_lang in Hp. now apply Z.eqb_eq in Hp.
Qed.

Lemma ML_length_sizes (e : Z) :
  length (sizes (set_epoch (__init__ d budget sh sd m) e)) = length (lang_range m).
Proof. cbn. apply length_map. Qed.

(** A partition without items has no batches: the constructor's guard
    changes nothing. *)
Lemma ML_init_batch_indices (e : Z) :
  let self := set_epoch (__init__ d budget sh sd m) e in
  init_batch_indices self = __iter__ self.
Proof.
  intros self. unfold init_batch_indices, __iter__.
  apply flat_map_ext. intros j.
  destruct (nth j (sizes self) []) eqn:Hsz; [|reflexivity].
  cbn [length Nat.ltb Nat.leb]. unfold batches_of, _get_indices. rewrite Hsz.
  reflexivity.
Qed.

Lemma ML_iter_by_category (e : Z) :
  by_category (lang_of d) (__iter__ (set_epoch (__init__ d budget sh sd m) e)).
Proof.
  unfold __iter__.
  apply flat_map_by_category with (c := fun j => Z.of_nat (2 + j)).
  - intros j Hj. apply in_seq in Hj. rewrite ML_length_sizes in Hj.
    apply ML_batches_of_lang. lia.
  - apply StronglySorted_weaken with (R := fun i j => (i < j)%nat);
      [| apply seq_NoDup | apply seq_strongly_sorted].
    intros a b _ _ _ Hab. lia.
Qed.

Lemma ML_iter_concat (e : Z) :
  Permutation
    (concat (__iter__ (set_epoch (__init__ d budget sh sd m) e)))
    (flat_map (fun j => enumerate_where (is_lang j) d) (lang_range m)).
Proof.
  set (self := set_epoch (__init__ d budget sh sd m) e).
  unfold __iter__, Batch. rewrite concat_flat_map.
  rewrite flat_map_perm with (g := fun j => nth j (dataset_idx self) []).
  - rewrite flat_map_concat_map.
    replace (length (sizes self)) with (length (dataset_idx self))
      by (subst self; cbn; now rewrite !length_map).
    rewrite map_nth_seq_id. subst self. cbn [dataset_idx set_epoch __init__].
    now rewrite <- flat_map_concat_map.
  - intros j Hj. apply in_seq in Hj. subst self. rewrite ML_length_sizes in Hj.
    apply ML_batches_of_concat. lia.
Qed.

Lemma ML_in_partitions (k : nat) :
  In k (flat_map (fun j => enumerate_where (is_lang j) d) (lang_range m))
  <-> (k < length d)%nat /\ 2 <= lang_of d k <= m.
Proof.
  rewrite in_flat_map. split.
  - intros (j & Hj & Hk). apply lang_range_in in Hj.
    apply enumerate_where_in in Hk as (x & Hx & Hp).
    unfold is_lang in Hp. apply Z.eqb_eq in Hp.
    split; [apply nth_error_Some; congruence|].
    unfold lang_of. erewrite nth_error_nth by exact Hx. lia.
  - intros [Hk Hlang]. exists (lang_of d k). split; [now apply lang_range_in|].
    apply enumerate_where_in.
    exists (nth k d {| item_frames := 0; item_lang := 0 |}). split.
    + now apply nth_error_nth'.
    + unfold is_lang, lang_of. apply Z.eqb_refl.
Qed.

Lemma ML_batches_of_length (e : Z) (j : nat) :
  length (batches_of (set_epoch (__init__ d budget sh sd m) e) j)
  = length (batches_of (__init__ d budget sh sd m) j).
Proof.
  unfold batches_of. rewrite !length_map. unfold data_utils.batch_by_size.
  apply batch_loop_length_costs; [|reflexivity].
  unfold _get_indices. cbn [sizes set_epoch __init__].
  rewrite !map_rev. f_equal. apply lexsort_costs_tiebreak.
Qed.

(** The declared length is the batch count of every epoch. *)
Lemma ML_num_batches (e : Z) :
  let self := set_epoch (__init__ d budget sh sd m) e in
  length (__iter__ self) = __len__ self.
Proof.
  intros self.
  change (__len__ self)
    with (length (init_batch_indices (set_epoch (__init__ d budget sh sd m) 0))).
  rewrite ML_init_batch_indices. subst self. unfold __iter__.
  cbn [sizes set_epoch __init__]. rewrite !length_flat_map.
  f_equal. apply map_ext. intros j.
  now rewrite !ML_batches_of_length.
Qed.

(** C5: in the batch list built at construction and in the one of every
    iteration, whatever the epoch, the items of one batch share their
    language token, and no batch follows a batch of a greater token. *)
Theorem multilang_batches_by_category (e : Z) :
  by_category (lang_of d) (init_batch_indices (__init__ d budget sh sd m))
  /\ by_category (lang_of d) (__iter__ (set_epoch (__init__ d budget sh sd m) e)).
Proof.
  split; [|apply ML_iter_by_category].
  pose proof (ML_init_batch_indices 0) as Hinit. cbn zeta in Hinit.
  pose proof (ML_iter_by_category 0) as Hcat.
  rewrite <- Hinit in Hcat. exact Hcat.
Qed.

(** C6: an item index appears in a batch, at construction and in every
    iteration, exactly when it is an index of the collection whose language
    token lies in [2, max_language_token]; so an item of a token outside the
    range appears in no batch, and every item of a token inside it appears
    in one.  Nothing is raised: the functions are total. *)
Theorem multilang_out_of_range_excluded (e : Z) (k : nat) :
  (In k (concat (__iter__ (set_epoch (__init__ d budget sh sd m) e)))
   <-> (k < length d)%nat /\ 2 <= lang_of d k <= m)
  /\ (In k (concat (init_batch_indices (__init__ d budget sh sd m)))
      <-> (k < length d)%nat /\ 2 <= lang_of d k <= m)
  /\ num_batches (__init__ d budget sh sd m)
     = length (init_batch_indices (__init__ d budget sh sd m)).
Proof.
  assert (forall e', In k (concat (__iter__ (set_epoch (__init__ d budget sh sd m) e')))
                     <-> (k < length d)%nat /\ 2 <= lang_of d k <= m) as Hiter.
  { intros e'. rewrite <- ML_in_partitions. split; intros H.
    - eapply Permutation_in; [apply ML_iter_concat|exact H].
    - eapply Permutation_in; [symmetry; apply ML_iter_concat|exact H]. }
  split; [apply Hiter|split; [|reflexivity]].
  pose proof (ML_init_batch_indices 0) as Hinit. cbn zeta in Hinit.
  specialize (Hiter 0). rewrite <- Hinit in Hiter. exact Hiter.
Qed.
End Multilang.

(** ** The materialized view *)

Section Views.
Context {RP : TorchRandperm}.

(** C4 (amended): for every epoch set via [set_epoch], a full iteration of
    [ByFrameCountSampler], and of [ByFrameCountSamplerMultilang], produces
    as many batches as its declared length, the count taken at
    construction.  The materialized view compares no
    lengths: its size is the wrapped sampler's declared length, before and
    after materialization, and an element access returns the element of the
    snapshot at that index, raising (an index error) only when the index
    lies outside the snapshot. *)
Theorem declared_length_and_snapshot (d : list Item) (budget : Z) (sh : bool)
    (sd m e : Z) :
  let self := ByFrameCountSampler.set_epoch
                (ByFrameCountSampler.__init__ d budget sh sd) e in
  let multi := ByFrameCountSamplerMultilang.set_epoch
                 (ByFrameCountSamplerMultilang.__init__ d budget sh sd m) e in
  length (fst (py_list self)) = py_len self
  /\ length (fst (py_list multi)) = py_len multi
  /\ forall (S : Type) (SS : Sampler S) (sampler : S) (index : Z),
       DatasetFromSampler.__len__ sampler DatasetFromSampler.__init__
       = py_len sampler
       /\ fst (DatasetFromSampler.__getitem__ sampler
                 DatasetFromSampler.__init__ index)
          = py_getitem (fst (py_list sampler)) index
       /\ DatasetFromSampler.__len__ (fst (materialized sampler))
            (snd (materialized sampler))
          = py_len (snd (py_list sampler)).
Proof.
  intros self multi. split; [|split].
  - apply BFCS_num_batches.
  - apply ML_num_batches.
  - intros S SS sampler index. rewrite getitem_fresh. repeat split.
Qed.

(** C8 (amended): the first element access of a view materializes the
    wrapped sampler's current iteration whole and caches it; every later
    access through the same view answers from that cached list and leaves
    it as it is, whatever epoch the wrapped sampler has been given since:
    the view keeps no epoch, and the cache is never patched. *)
Theorem getitem_materializes_once (S : Type) (SS : Sampler S) (sampler : S)
    (index : Z) (l : list Batch) (e : Z) :
  DatasetFromSampler.__getitem__ sampler DatasetFromSampler.__init__ index
  = (py_getitem (fst (py_list sampler)) index, materialized sampler)
  /\ DatasetFromSampler.__getitem__ (py_set_epoch sampler e)
       {| DatasetFromSampler.sampler_list := Some l |} index
     = (py_getitem l index,
        (py_set_epoch sampler e, {| DatasetFromSampler.sampler_list := Some l |})).
Proof. split; [apply getitem_fresh|apply getitem_cached]. Qed.
End Views.

(** ** Configuration *)

Lemma flat_map_all_nil {A B : Type} (f : A -> list B) (l : list A) :
  (forall x, f x = []) -> flat_map f l = [].
Proof.
  intros H. induction l as [|x l IH]; cbn; [reflexivity|]. now rewrite H, IH.
Qed.

Section Configuration.
Context {RP : TorchRandperm} {S : Type} {SS : Sampler S}.

(** C9 (amended): constructing the sharded wrapper fails, at construction
    and with a configuration error, exactly when the shard count is zero or
    less or the rank is outside [0, num_shards).  The batching strategies check
    nothing: over an empty item collection both are constructed with zero
    batches and iterate to nothing, and whatever the budget, zero or less
    included, both are constructed and their batches hold every index (of
    the partitioned strategy: every index of an in-range token). *)
Theorem configuration_checks (sampler0 : S) (nr rank : Z) (shw dl : bool)
    (d : list Item) (budget : Z) (sh : bool) (sd m : Z) :
  (DistributedSamplerWrapper.__init__ sampler0 nr rank shw dl = Raise ValueError
   <-> nr <= 0 \/ rank < 0 \/ nr <= rank)
  /\ (ByFrameCountSampler.__len__ (ByFrameCountSampler.__init__ [] budget sh sd)
      = 0%nat
      /\ ByFrameCountSampler.__iter__ (ByFrameCountSampler.__init__ [] budget sh sd)
         = [])
  /\ (ByFrameCountSamplerMultilang.__len__
        (ByFrameCountSamplerMultilang.__init__ [] budget sh sd m) = 0%nat
      /\ ByFrameCountSamplerMultilang.__iter__
           (ByFrameCountSamplerMultilang.__init__ [] budget sh sd m) = [])
  /\ (Permutation
        (concat (ByFrameCountSampler.__iter__
                   (ByFrameCountSampler.__init__ d budget sh sd)))
        (seq 0 (length d))
      /\ forall k,
           In k (concat (ByFrameCountSamplerMultilang.__iter__
                           (ByFrameCountSamplerMultilang.__init__ d budget sh sd m)))
           <-> (k < length d)%nat /\ 2 <= lang_of d k <= m).
Proof.
  split; [|split; [|split]].
  - unfold DistributedSamplerWrapper.__init__, DistributedSampler.__init__.
    destruct ((rank >=? nr) || (rank <? 0)) eqn:Hbad.
    + split; [|reflexivity]. intros _.
      apply orb_true_iff in Hbad. rewrite Z.geb_le, Z.ltb_lt in Hbad. lia.
    + split; [discriminate|]. intros H.
      apply orb_false_iff in Hbad as [Hge Hlt].
      rewrite Z.geb_leb in Hge. apply Z.leb_gt in Hge.
      apply Z.ltb_ge in Hlt. lia.
  - split; reflexivity.
  - assert (forall (l : list Z) (j : nat),
               nth j (map (fun _ : Z => @nil Z) l) [] = []) as Hnth.
    { induction l as [|z l IH]; destruct j; cbn; auto. }
    assert (ByFrameCountSamplerMultilang.__iter__
              (ByFrameCountSamplerMultilang.__init__ [] budget sh sd m) = [])
      as Hiter.
    { unfold ByFrameCountSamplerMultilang.__iter__.
      apply flat_map_all_nil. intros j.
      unfold ByFrameCountSamplerMultilang.batches_of,
        ByFrameCountSamplerMultilang._get_indices.
      cbn [ByFrameCountSamplerMultilang.sizes
             ByFrameCountSamplerMultilang.__init__ filter map].
      rewrite Hnth. reflexivity. }
    split; [|exact Hiter].
    change (length (ByFrameCountSamplerMultilang.init_batch_indices
                      (ByFrameCountSamplerMultilang.__init__ [] budget sh sd m))
            = 0%nat).
    pose proof (@ML_init_batch_indices RP [] budget sh sd m 0) as Hinit.
    change (ByFrameCountSamplerMultilang.init_batch_indices
              (ByFrameCountSamplerMultilang.__init__ [] budget sh sd m)
            = ByFrameCountSamplerMultilang.__iter__
                (ByFrameCountSamplerMultilang.__init__ [] budget sh sd m))
      in Hinit.
    rewrite Hinit, Hiter. reflexivity.
  - split.
    + rewrite BFCS_iter_concat, BFCS_get_indices_perm.
      cbn [ByFrameCountSampler.sizes ByFrameCountSampler.__init__].
      now rewrite length_map.
    + intros k. rewrite <- ML_in_partitions.
      change (ByFrameCountSamplerMultilang.__init__ d budget sh sd m)
        with (ByFrameCountSamplerMultilang.set_epoch
                (ByFrameCountSamplerMultilang.__init__ d budget sh sd m) 0).
      split; intros H.
      * eapply Permutation_in; [apply ML_iter_concat|exact H].
      * eapply Permutation_in; [symmetry; apply ML_iter_concat|exact H].
Qed.
End Configuration.

(** ** Sharding *)

Lemma py_getitem_in_range {A : Type} (l : list A) (k : nat) (d : A) :
  (k < length l)%nat -> py_getitem l (Z.of_nat k) = Ok (nth k l d).
Proof.
  intros Hk. unfold py_getitem.
  replace (Z.of_nat k <? 0) with false by (symmetry; apply Z.ltb_ge; lia).
  replace ((0 <=? Z.of_nat k) && (Z.of_nat k <? Z.of_nat (length l))) with true.
  - rewrite Nat2Z.id. now rewrite (nth_error_nth' l d Hk).
  - symmetry. apply andb_true_iff. rewrite Z.leb_le, Z.ltb_lt. lia.
Qed.

Lemma py_slice_step_in {A : Type} (l : list A) (start stop step : Z) (x : A) :
  In x (py_slice_step l start stop step)
  <-> exists q, nth_error l q = Some x
                /\ start <= Z.of_nat q < stop
                /\ (Z.of_nat q - start) mod step = 0.
Proof.
  unfold py_slice_step. rewrite in_map_iff. split.
  - intros ([q y] & Hy & Hin). cbn in Hy. subst y.
    apply filter_In in Hin as [Hin Hsel]. cbn [fst] in Hsel.
    apply combine_seq_in in Hin as [_ Hin]. rewrite Nat.sub_0_r in Hin.
    apply andb_true_iff in Hsel as [Hsel Hmod].
    apply andb_true_iff in Hsel as [Hlo Hhi].
    exists q. rewrite Z.leb_le in Hlo. rewrite Z.ltb_lt in Hhi.
    rewrite Z.eqb_eq in Hmod. repeat split; assumption.
  - intros (q & Hq & [Hlo Hhi] & Hmod). exists (q, x). split; [reflexivity|].
    apply filter_In. split.
    + apply combine_seq_in. rewrite Nat.sub_0_r. split; [lia|exact Hq].
    + cbn [fst]. rewrite !andb_true_iff, Z.leb_le, Z.ltb_lt, Z.eqb_eq.
      repeat split; assumption.
Qed.

(** Every element of the padded order falls to the shard whose rank is its
    position modulo the number of shards. *)
Lemma every_position_in_some_shard {A : Type} (l : list A) (total nr : Z) (x : A) :
  0 < nr -> Z.of_nat (length l) <= total -> In x l ->
  exists r, 0 <= r < nr /\ In x (py_slice_step l r total nr).
Proof.
  intros Hnr Hlen Hin. apply In_nth_error in Hin as [q Hq].
  assert (q < length l)%nat as Hql by (apply nth_error_Some; congruence).
  exists (Z.of_nat q mod nr). split; [now apply Z.mod_pos_bound|].
  apply py_slice_step_in. exists q. split; [exact Hq|].
  pose proof (Z.mod_pos_bound (Z.of_nat q) nr Hnr) as Hbound.
  pose proof (Z.mod_le (Z.of_nat q) nr ltac:(lia) Hnr) as Hle.
  split; [lia|].
  rewrite Zminus_mod_idemp_r, Z.sub_diag. now apply Z.mod_0_l, Z.neq_sym, Z.lt_neq.
Qed.

Section Sharding.
Context {RP : TorchRandperm} {S : Type} {SS : Sampler S}.

(** Without [drop_last] the padded order holds every snapshot position. *)
Lemma padded_indices_cover (self : DistributedSampler.t) (len_dataset : nat)
    (indices : list nat) (p : nat) :
  randperm_spec RP ->
  DistributedSampler.drop_last self = false ->
  DistributedSampler.padded_indices self len_dataset = Ok indices ->
  (p < len_dataset)%nat -> In p indices.
Proof.
  intros Hrp Hdrop Hpad Hp. unfold DistributedSampler.padded_indices in Hpad.
  rewrite Hdrop in Hpad. cbn [negb] in Hpad.
  set (order := if DistributedSampler.shuffle self
                then randperm (DistributedSampler.seed self
                               + DistributedSampler.epoch self) len_dataset
                else seq 0 len_dataset) in *.
  assert (In p order) as Hin.
  { subst order. destruct (DistributedSampler.shuffle self).
    - eapply Permutation_in; [symmetry; apply Hrp|]. apply in_seq. lia.
    - apply in_seq. lia. }
  destruct (_ <=? _) in Hpad.
  - injection Hpad as <-. apply in_or_app. now left.
  - destruct (_ =? _) in Hpad; [discriminate|].
    injection Hpad as <-. apply in_or_app. now left.
Qed.

Lemma getitems_snapshot (sampler : S) (l : list Batch) (items : list nat) :
  Forall (fun i => (i < length l)%nat) items ->
  fst (DatasetFromSampler.getitems sampler
         {| DatasetFromSampler.sampler_list := Some l |} (map Z.of_nat items))
  = Ok (map (fun i => nth i l []) items).
Proof.
  induction 1 as [|i rest Hi Hrest IH]; [reflexivity|].
  cbn [map DatasetFromSampler.getitems]. rewrite getitem_cached.
  rewrite (py_getitem_in_range (A := Batch) l i []) by assumption.
  destruct (DatasetFromSampler.getitems sampler
              {| DatasetFromSampler.sampler_list := Some l |}
              (map Z.of_nat rest)) as [[bs|e] st]; cbn in IH |- *.
  - now injection IH as ->.
  - discriminate.
Qed.

Lemma getitems_fresh_snapshot (sampler : S) (items : list nat) :
  items <> [] ->
  Forall (fun i => (i < length (fst (py_list sampler)))%nat) items ->
  fst (DatasetFromSampler.getitems sampler DatasetFromSampler.__init__
         (map Z.of_nat items))
  = Ok (map (fun i => nth i (fst (py_list sampler)) []) items).
Proof.
  destruct items as [|i rest]; [congruence|]. intros _ Hrange.
  apply Forall_cons_iff in Hrange as [Hi Hrange].
  cbn [map DatasetFromSampler.getitems]. rewrite getitem_fresh.
  rewrite (py_getitem_in_range (A := Batch) _ i []) by assumption.
  unfold materialized.
  pose proof (getitems_snapshot (snd (py_list sampler)) (fst (py_list sampler))
                rest Hrange) as Hrest.
  destruct (DatasetFromSampler.getitems (snd (py_list sampler))
              {| DatasetFromSampler.sampler_list := Some (fst (py_list sampler)) |}
              (map Z.of_nat rest)) as [[bs|e] st]; cbn in Hrest |- *.
  - now injection Hrest as ->.
  - discriminate.
Qed.

(** X8: a shard of two or more snapshot positions, all inside the snapshot,
    yields the batches at these positions, in their order. *)
Lemma shard_of_several_batches (w : DistributedSamplerWrapper.t S)
    (idx : list nat) :
  DistributedSampler.__iter__ (DistributedSamplerWrapper.super w)
    (py_len (DistributedSamplerWrapper.sampler w)) = Ok idx ->
  (2 <= length idx)%nat ->
  Forall (fun i => (i < length (fst (py_list (DistributedSamplerWrapper.sampler w))))%nat)
    idx ->
  fst (DistributedSamplerWrapper.__iter__ w)
  = Ok (map (fun i => YBatch (nth i (fst (py_list (DistributedSamplerWrapper.sampler w))) []))
          idx).
Proof.
  intros Hidx Hlen Hrange.
  unfold DistributedSamplerWrapper.__iter__, DatasetFromSampler.__len__.
  rewrite Hidx. destruct idx as [|i [|k rest]]; cbn in Hlen; try lia.
  set (sampler := DistributedSamplerWrapper.sampler w) in *.
  pose proof (getitems_fresh_snapshot sampler (i :: k :: rest)
                ltac:(discriminate) Hrange) as Hget.
  unfold iter_itemgetter. cbn [map] in Hget |- *.
  destruct (DatasetFromSampler.getitems sampler DatasetFromSampler.__init__
              (Z.of_nat i :: Z.of_nat k :: map Z.of_nat rest))
    as [[bs|e] [s' d']]; cbn in Hget |- *.
  - injection Hget as ->. cbn [map]. now rewrite map_map.
  - discriminate.
Qed.
End Sharding.

(** ** Concrete runs *)

Section Runs.
#[local] Existing Instance flip_randperm.
#[local] Existing Instance counting_generator.

Lemma shard_1_of_2_constructed :
  DistributedSamplerWrapper.__init__ four_batches 2 1 false false = Ok shard_1_of_2.
Proof. reflexivity. Qed.

Lemma reshuffled_constructed :
  RandomSamplerWrapper.__init__ four_batches = Ok reshuffled.
Proof. reflexivity. Qed.

(** The scenario of the partitioned batcher: tokens 2 and 3 are batched,
    the item of token 1 is left out. *)
Example multilang_scenario :
  ByFrameCountSamplerMultilang.__iter__
    (ByFrameCountSamplerMultilang.__init__
       [ {| item_frames := 2; item_lang := 2 |};
         {| item_frames := 1; item_lang := 1 |};
         {| item_frames := 10; item_lang := 3 |};
         {| item_frames := 2; item_lang := 2 |} ] 10 false 0 3)
  = [[3; 0]; [2]]%nat.
Proof. reflexivity. Qed.

(** C1, as stated, fails: for the costs [3,1,4,1,5] the order is not
    [4,2,0,1,3], the two items of cost 1 coming with the greater index
    first, and the last batch is not [0,1,3]. *)
Lemma ties_not_in_ascending_index_order :
  ByFrameCountSampler._get_indices
    (ByFrameCountSampler.__init__ five_items 5 false 0)
  <> [4; 2; 0; 1; 3]%nat
  /\ ByFrameCountSampler.__iter__
       (ByFrameCountSampler.__init__ five_items 5 false 0)
     <> [[4]; [2]; [0; 1; 3]]%nat.
Proof. split; discriminate. Qed.

(** A run of C2: shuffled, at epoch 1, under a budget no item exceeds. *)
Lemma iter_covers_within_budget_run :
  Forall (fun item => item_frames item <= 5) five_items
  /\ Forall (fun b => total_cost (fun i => nth i (map item_frames five_items) 0) b <= 5)
       (ByFrameCountSampler.__iter__
          (ByFrameCountSampler.set_epoch
             (ByFrameCountSampler.__init__ five_items 5 true 0) 1)).
Proof.
  assert (Forall (fun item => item_frames item <= 5) five_items) as Hfit
    by (repeat constructor; cbn; lia).
  split; [exact Hfit|].
  exact (proj2 (proj2 (proj2
           (iter_covers_within_budget five_items 5 true 0 1))) Hfit).
Defined.

(** A run of C3: the seed and the epoch exchanged, the budget changed. *)
Lemma get_indices_deterministic_run :
  map item_frames five_items = map item_frames five_items
  /\ 0 + 1 = 1 + 0
  /\ ByFrameCountSampler._get_indices
       (ByFrameCountSampler.set_epoch
          (ByFrameCountSampler.__init__ five_items 5 true 0) 1)
     = ByFrameCountSampler._get_indices
         (ByFrameCountSampler.set_epoch
            (ByFrameCountSampler.__init__ five_items 9 true 1) 0).
Proof.
  split; [reflexivity|]. split; [reflexivity|].
  exact (proj1 (get_indices_deterministic five_items five_items 5 9 0 1 1 0
                  eq_refl eq_refl)).
Defined.

(** C4, as stated, fails: a snapshot of two batches under a declared length
    of three is served without any error. *)
Lemma length_mismatch_not_reported :
  ~ (forall (sampler : FixedSampler) (index : Z),
        length (fst (py_list sampler))
        <> DatasetFromSampler.__len__ sampler DatasetFromSampler.__init__ ->
        exists e,
          fst (DatasetFromSampler.__getitem__ sampler
                 DatasetFromSampler.__init__ index) = Raise e).
Proof.
  intros H. destruct (H short_snapshot 0) as [e He].
  - cbn. discriminate.
  - cbn in He. discriminate.
Qed.

(** C7 fails on the code: with the items of costs 1, 1, 2 and budget 2 the
    batches are [2], [1,0]; of two shards, the one of rank 1 is assigned the
    one batch [1,0], and its iteration yields the item indices 1 and 0
    instead of that batch. *)
Theorem single_index_shard_yields_item_indices :
  let sampler := ByFrameCountSampler.__init__ (items_of_costs [1; 1; 2]) 2 false 0 in
  fst (py_list sampler) = [[2]; [1; 0]]%nat
  /\ exists w,
       DistributedSamplerWrapper.__init__ sampler 2 1 false false = Ok w
       /\ DistributedSampler.__iter__ (DistributedSamplerWrapper.super w)
            (py_len sampler) = Ok [1%nat]
       /\ fst (DistributedSamplerWrapper.__iter__ w) = Ok [YIndex 1; YIndex 0]
       /\ fst (DistributedSamplerWrapper.__iter__ w) <> Ok [YBatch [1; 0]%nat].
Proof.
  split; [reflexivity|]. eexists. split; [reflexivity|].
  split; [reflexivity|]. split; [reflexivity|discriminate].
Qed.

(** C8, as stated, fails: a view materialized at epoch 0 still answers with
    the batch of epoch 0 after the sampler has been moved to epoch 1, whose
    first batch is another. *)
Lemma snapshot_kept_across_epochs :
  let sampler0 := ByFrameCountSampler.__init__ (items_of_costs [1; 1]) 1 true 0 in
  let first := DatasetFromSampler.__getitem__ sampler0 DatasetFromSampler.__init__ 0 in
  let sampler1 := py_set_epoch (fst (snd first)) 1 in
  fst first = Ok [1%nat]
  /\ fst (DatasetFromSampler.__getitem__ sampler1 (snd (snd first)) 0) = Ok [1%nat]
  /\ py_getitem (fst (py_list sampler1)) 0 = Ok [0%nat].
Proof. repeat split. Qed.

(** C9, as stated, fails: both strategies are constructed over an empty
    collection, with no batches, and a strategy with a budget of zero or
    less is constructed too and its batches hold both items. *)
Lemma empty_collection_and_zero_budget_construct :
  py_len (ByFrameCountSampler.__init__ [] 5 true 0) = 0%nat
  /\ fst (py_list (ByFrameCountSampler.__init__ [] 5 true 0)) = []
  /\ py_len (ByFrameCountSamplerMultilang.__init__ [] 5 true 0 6) = 0%nat
  /\ fst (py_list (ByFrameCountSamplerMultilang.__init__ [] 5 true 0 6)) = []
  /\ concat (fst (py_list (ByFrameCountSampler.__init__
                             (items_of_costs [3; 1]) 0 false 0)))
     = [0; 1]%nat
  /\ concat (fst (py_list (ByFrameCountSampler.__init__
                             (items_of_costs [3; 1]) (-2) false 0)))
     = [0; 1]%nat.
Proof. repeat split. Qed.

(** A run of C9: no shards at all. *)
Lemma configuration_checks_run :
  (0 <= 0 \/ 0 < 0 \/ 0 <= 0)
  /\ DistributedSamplerWrapper.__init__ four_batches 0 0 true false
     = Raise ValueError.
Proof.
  assert (0 <= 0 \/ 0 < 0 \/ 0 <= 0) as Hbad by (left; lia).
  split; [exact Hbad|].
  exact (proj2 (proj1 (configuration_checks four_batches 0 0 true false
                         five_items 0 false 0 6)) Hbad).
Defined.

(** C10, as stated, fails: with one batch, two shards and [drop_last], the
    index list is empty; the call raises before any element is read and the
    wrapped sampler is not iterated at all. *)
Lemma empty_index_list_materializes_nothing :
  exists w,
    DistributedSamplerWrapper.__init__ one_batch 2 1 false true = Ok w
    /\ fst (DistributedSamplerWrapper.__iter__ w) = Raise TypeError
    /\ iterations (DistributedSamplerWrapper.sampler
                     (snd (DistributedSamplerWrapper.__iter__ w))) = 0%nat
    /\ DistributedSamplerWrapper.dataset (snd (DistributedSamplerWrapper.__iter__ w))
       = DatasetFromSampler.__init__.
Proof. eexists. repeat split. Qed.

(** A run of C10: both wrappers over four batches; the wrapped sampler has
    been iterated once after the call. *)
Lemma iter_rematerializes_run :
  iterations
    (DistributedSamplerWrapper.sampler
       (snd (DistributedSamplerWrapper.__iter__ shard_1_of_2))) = 1%nat
  /\ iterations
       (RandomSamplerWrapper.sampler
          (snd (fst (RandomSamplerWrapper.__iter__ 0 reshuffled)))) = 1%nat.
Proof.
  destruct (iter_rematerializes shard_1_of_2 reshuffled 0
              DatasetFromSampler.__init__ None) as [[_ Hd] [_ Hr]].
  split.
  - exact (f_equal (fun p => iterations (fst p)) Hd).
  - exact (f_equal (fun p => iterations (fst p)) Hr).
Defined.
End Runs.

(** * Further properties of the samplers *)

(** ** Orders and batches of [ByFrameCountSampler] *)

Lemma StronglySorted_app_inv {A : Type} (R : A -> A -> Prop) (l1 l2 : list A) :
  StronglySorted R (l1 ++ l2) ->
  StronglySorted R l1 /\ StronglySorted R l2
  /\ (forall a b, In a l1 -> In b l2 -> R a b).
Proof.
  induction l1 as [|a l1 IH]; cbn; intros H.
  - repeat split; [constructor|assumption|intros ? ? []].
  - apply StronglySorted_inv in H as [H Ha]. destruct (IH H) as (H1 & H2 & H12).
    apply Forall_app in Ha as [Ha1 Ha2]. repeat split.
    + now constructor.
    + assumption.
    + intros x y [<-|Hx] Hy; [|now apply H12].
      rewrite Forall_forall in Ha2. now apply Ha2.
Qed.

(** A sorted concatenation: the blocks are sorted, and so are the elements
    of different blocks. *)
Lemma StronglySorted_concat_inv {A : Type} (R : A -> A -> Prop) (L : list (list A)) :
  StronglySorted R (concat L) ->
  StronglySorted (fun b1 b2 => forall x y, In x b1 -> In y b2 -> R x y) L
  /\ Forall (StronglySorted R) L.
Proof.
  induction L as [|b L IH]; cbn; intros H.
  - split; constructor.
  - apply StronglySorted_app_inv in H as (Hb & HL & Hcross).
    destruct (IH HL) as [IH1 IH2]. split; constructor; try assumption.
    apply Forall_forall. intros b' Hb' x y Hx Hy. apply Hcross; [assumption|].
    apply in_concat. now exists b'.
Qed.

Lemma nth_map_item_frames (d : list Item) (i : nat) :
  nth i (map item_frames d) 0 = cost_of d i.
Proof.
  unfold cost_of.
  change 0 with (item_frames {| item_frames := 0; item_lang := 0 |}) at 1.
  apply map_nth.
Qed.

(** The batches carry the same costs when the orders do. *)
Lemma batch_loop_costs (cost : nat -> Z) (budget : Z)
    (o1 o2 : list nat) (cur1 cur2 : Batch) (c : Z) :
  map cost o1 = map cost o2 ->
  map cost cur1 = map cost cur2 ->
  map (map cost) (data_utils.batch_loop cost budget o1 cur1 c)
  = map (map cost) (data_utils.batch_loop cost budget o2 cur2 c).
Proof.
  revert o2 cur1 cur2 c.
  induction o1 as [|i o1 IH]; intros [|k o2] cur1 cur2 c Hmap Hcur;
    try discriminate; cbn [data_utils.batch_loop].
  - destruct cur1, cur2; try discriminate; [reflexivity|].
    change (map (map cost) [?b]) with [map cost b]. now rewrite Hcur.
  - cbn [map] in Hmap. injection Hmap as Hik Hmap. rewrite <- Hik.
    assert (map cost [i] = map cost [k]) as Hone by (cbn; now rewrite Hik).
    destruct cur1 as [|x1 cur1], cur2 as [|x2 cur2]; try discriminate.
    + now apply IH.
    + destruct (c + cost i <=? budget).
      * apply IH; [assumption|]. rewrite !map_app. now rewrite Hcur, Hone.
      * rewrite !(map_cons (map cost)), Hcur. f_equal. now apply IH.
Qed.

Section OrderAndBatches.
Context {RP : TorchRandperm}.
Import ByFrameCountSampler.

Lemma BFCS_get_indices_sorted (self : t) :
  StronglySorted
    (fun i j => nth j (sizes self) 0 <= nth i (sizes self) 0)
    (_get_indices self).
Proof.
  unfold _get_indices.
  apply (StronglySorted_rev
           (fun a b => nth a (sizes self) 0 <= nth b (sizes self) 0)).
  set (order := if shuffle self then _ else _).
  apply StronglySorted_weaken with (R := key_leP order (sizes self)).
  - intros a b _ _ _ Hab. apply key_le_spec in Hab. lia.
  - eapply Permutation_NoDup; [symmetry; apply lexsort_perm|apply seq_NoDup].
  - apply lexsort_sorted.
Qed.

(** X1: with or without shuffling, and at every epoch, [_get_indices]
    returns a permutation of [0 .. N-1] along which the item costs never
    increase; and the costs met along it are the same list whatever the
    shuffle flag, the seed and the epoch: shuffling exchanges items of equal
    cost only. *)
Theorem get_indices_cost_descending (d : list Item) (budget : Z)
    (sh sh' : bool) (sd sd' e e' : Z) :
  let self := set_epoch (__init__ d budget sh sd) e in
  let self' := set_epoch (__init__ d budget sh' sd') e' in
  Permutation (_get_indices self) (seq 0 (length d))
  /\ StronglySorted (fun i j => cost_of d j <= cost_of d i) (_get_indices self)
  /\ map (cost_of d) (_get_indices self) = map (cost_of d) (_get_indices self').
Proof.
  intros self self'. split; [|split].
  - rewrite BFCS_get_indices_perm. subst self. cbn [sizes set_epoch __init__].
    now rewrite length_map.
  - pose proof (BFCS_get_indices_sorted self) as Hs.
    eapply StronglySorted_weaken with (R' := fun i j => cost_of d j <= cost_of d i)
      in Hs; [exact Hs| |].
    + intros a b _ _ _. subst self. cbn [sizes set_epoch __init__].
      now rewrite !nth_map_item_frames.
    + eapply Permutation_NoDup;
        [symmetry; apply BFCS_get_indices_perm|apply seq_NoDup].
  - pose proof (BFCS_costs_along_order self self' eq_refl) as H.
    subst self self'. cbn [sizes set_epoch __init__] in H.
    erewrite map_ext in H by (intros; apply nth_map_item_frames).
    symmetry in H. erewrite map_ext in H by (intros; apply nth_map_item_frames).
    now symmetry.
Qed.

(** X2: the batches of an iteration come in descending order of cost: an
    item of an earlier batch costs at least as much as any item of a later
    batch, and within a batch the costs never increase. *)
Theorem batches_cost_descending (d : list Item) (budget : Z) (sh : bool)
    (sd e : Z) :
  let self := set_epoch (__init__ d budget sh sd) e in
  StronglySorted
    (fun b1 b2 => forall x y, In x b1 -> In y b2 -> cost_of d y <= cost_of d x)
    (__iter__ self)
  /\ Forall (StronglySorted (fun i j => cost_of d j <= cost_of d i)) (__iter__ self).
Proof.
  intros self. apply StronglySorted_concat_inv.
  rewrite BFCS_iter_concat.
  pose proof (BFCS_get_indices_sorted self) as Hs.
  eapply StronglySorted_weaken; [| |exact Hs].
  - intros a b _ _ _. subst self. cbn [sizes set_epoch __init__].
    now rewrite !nth_map_item_frames.
  - eapply Permutation_NoDup;
      [symmetry; apply BFCS_get_indices_perm|apply seq_NoDup].
Qed.

(** X3: the batches have the same shape at every epoch, with any seed and
    with or without shuffling: the lists of the costs of their items, batch
    by batch, are the same; so are the number of batches and the number of
    items of each. *)
Theorem batch_shapes_epoch_independent (d : list Item) (budget : Z)
    (sh sh' : bool) (sd sd' e e' : Z) :
  let self := set_epoch (__init__ d budget sh sd) e in
  let self' := set_epoch (__init__ d budget sh' sd') e' in
  map (map (cost_of d)) (__iter__ self) = map (map (cost_of d)) (__iter__ self')
  /\ map (@length nat) (__iter__ self) = map (@length nat) (__iter__ self').
Proof.
  intros self self'.
  assert (map (map (fun i => nth i (map item_frames d) 0)) (__iter__ self)
          = map (map (fun i => nth i (map item_frames d) 0)) (__iter__ self'))
    as Hshape.
  { unfold __iter__, data_utils.batch_by_size.
    subst self self'. cbn [sizes max_frames_per_gpu set_epoch __init__].
    apply batch_loop_costs; [|reflexivity].
    apply (BFCS_costs_along_order
             (set_epoch (__init__ d budget sh sd) e)
             (set_epoch (__init__ d budget sh' sd') e')).
    reflexivity. }
  assert (forall L : list Batch,
             map (map (fun i => nth i (map item_frames d) 0)) L
             = map (map (cost_of d)) L) as Hcost.
  { intros L. apply map_ext. intros b. apply map_ext. intros i.
    apply nth_map_item_frames. }
  rewrite !Hcost in Hshape. split; [exact Hshape|].
  apply (f_equal (map (@length Z))) in Hshape.
  rewrite !map_map in Hshape.
  erewrite map_ext in Hshape by (intros; apply length_map).
  symmetry in Hshape.
  erewrite map_ext in Hshape by (intros; apply length_map).
  now symmetry.
Qed.
End OrderAndBatches.

(** ** Partitions of [ByFrameCountSamplerMultilang] *)

Lemma filter_combine_snd {A : Type} (p : A -> bool) (l : list A) (a : nat) :
  map snd (filter (fun ki => p (snd ki)) (combine (seq a (length l)) l))
  = filter p l.
Proof.
  revert a. induction l as [|x l IH]; intros a; cbn [length seq combine filter snd];
    [reflexivity|].
  destruct (p x); cbn [map snd]; now rewrite IH.
Qed.

Lemma filter_combine_fst_sorted {A : Type} (q : nat * A -> bool) (l : list A) (a : nat) :
  StronglySorted lt (map fst (filter q (combine (seq a (length l)) l)))
  /\ Forall (fun k => (a <= k)%nat) (map fst (filter q (combine (seq a (length l)) l))).
Proof.
  revert a. induction l as [|x l IH]; intros a; cbn [length seq combine filter].
  - split; constructor.
  - destruct (IH (S a)) as [Hs Hge].
    assert (Forall (fun k => (a < k)%nat)
              (map fst (filter q (combine (seq (S a) (length l)) l)))) as Hgt
      by (eapply Forall_impl; [|exact Hge]; cbn; intros; lia).
    destruct (q (a, x)); cbn [map fst]; split.
    + now constructor.
    + constructor; [lia|]. eapply Forall_impl; [|exact Hgt]. cbn. intros. lia.
    + assumption.
    + eapply Forall_impl; [|exact Hgt]. cbn. intros. lia.
Qed.

Lemma enumerate_where_sorted {A : Type} (p : A -> bool) (l : list A) :
  StronglySorted lt (enumerate_where p l).
Proof. apply filter_combine_fst_sorted. Qed.

Lemma StronglySorted_lt_NoDup (l : list nat) : StronglySorted lt l -> NoDup l.
Proof.
  induction 1 as [|a l Hl IH Ha]; constructor; [|assumption].
  intros Hin. rewrite Forall_forall in Ha. specialize (Ha a Hin). lia.
Qed.

(** The two comprehensions of the constructor run in step: the [i]-th cost
    kept for a token is the cost of the [i]-th index kept for it. *)
Lemma enumerate_where_aligned (p : Item -> bool) (d : list Item) (i : nat) :
  (i < length (enumerate_where p d))%nat ->
  nth i (map item_frames (filter p d)) 0
  = cost_of d (nth i (enumerate_where p d) 0%nat).
Proof.
  intros Hi. rewrite <- (filter_combine_snd p d 0). unfold enumerate_where in *.
  set (L := filter (fun ki => p (snd ki)) (combine (seq 0 (length d)) d)) in *.
  rewrite length_map in Hi.
  set (dflt := (0%nat, {| item_frames := 0; item_lang := 0 |})).
  rewrite map_map.
  change 0 with ((fun ki : nat * Item => item_frames (snd ki)) dflt) at 1.
  rewrite map_nth.
  change (nth i (map fst L) 0%nat) with (nth i (map fst L) (fst dflt)).
  rewrite map_nth.
  pose proof (nth_In L dflt Hi) as Hin. destruct (nth i L dflt) as [k x].
  subst L. apply filter_In in Hin as [Hin _].
  apply combine_seq_in in Hin as [_ Hin]. rewrite Nat.sub_0_r in Hin.
  cbn [fst snd]. unfold cost_of. now erewrite nth_error_nth by exact Hin.
Qed.

Lemma total_cost_ext (f g : nat -> Z) (b : Batch) :
  (forall i, In i b -> f i = g i) -> total_cost f b = total_cost g b.
Proof.
  unfold total_cost. induction b as [|x b IH]; intros H; [reflexivity|].
  cbn [map fold_right]. rewrite H by now left.
  f_equal. apply IH. intros i Hi. apply H. now right.
Qed.

Lemma total_cost_map (f : nat -> Z) (g : nat -> nat) (b : Batch) :
  total_cost f (map g b) = total_cost (fun i => f (g i)) b.
Proof. unfold total_cost. now rewrite map_map. Qed.

Lemma flat_map_NoDup {A B : Type} (f : A -> list B) (l : list A) :
  NoDup l ->
  (forall x, In x l -> NoDup (f x)) ->
  (forall x y b, In x l -> In y l -> In b (f x) -> In b (f y) -> x = y) ->
  NoDup (flat_map f l).
Proof.
  induction l as [|x l IH]; intros Hnd Hf Hdisj; cbn; [constructor|].
  apply NoDup_cons_iff in Hnd as [Hx Hnd].
  assert (NoDup (flat_map f l)) as Hrest.
  { apply IH; [assumption| |].
    - intros y Hy. apply Hf. now right.
    - intros y z b Hy Hz. apply Hdisj; now right. }
  assert (NoDup (f x)) as Hfx by (apply Hf; now left).
  assert (forall b, In b (f x) -> ~ In b (flat_map f l)) as Hsep.
  { intros b Hb Hin. apply in_flat_map in Hin as (y & Hy & Hby).
    apply Hx. rewrite (Hdisj x y b); auto; [now left|now right]. }
  clear - Hrest Hfx Hsep. induction (f x) as [|b bs IHb]; [exact Hrest|].
  apply NoDup_cons_iff in Hfx as [Hb Hbs]. cbn. constructor.
  - intros Hin. apply in_app_or in Hin as [Hin|Hin]; [contradiction|].
    apply (Hsep b); [now left|assumption].
  - apply IHb; [assumption|]. intros c Hc. apply Hsep. now right.
Qed.

Lemma flat_map_all_nil_in {A B : Type} (f : A -> list B) (l : list A) :
  (forall x, In x l -> f x = []) -> flat_map f l = [].
Proof.
  induction l as [|x l IH]; intros H; cbn; [reflexivity|].
  rewrite H by now left. apply IH. intros y Hy. apply H. now right.
Qed.

Lemma flat_map_single {A B : Type} (f : A -> list B) (l : list A) (x0 : A) :
  NoDup l -> In x0 l ->
  (forall x, In x l -> x <> x0 -> f x = []) ->
  flat_map f l = f x0.
Proof.
  induction l as [|x l IH]; intros Hnd Hin Hnil; [contradiction|].
  apply NoDup_cons_iff in Hnd as [Hx Hnd]. cbn. destruct Hin as [->|Hin].
  - rewrite flat_map_all_nil_in; [now rewrite app_nil_r|].
    intros y Hy. apply Hnil; [now right|]. intros ->. contradiction.
  - rewrite (Hnil x); [|now left|intros ->; contradiction]. cbn.
    apply IH; auto. intros y Hy. apply Hnil. now right.
Qed.

Lemma lang_range_NoDup (m : Z) : NoDup (ByFrameCountSamplerMultilang.lang_range m).
Proof.
  unfold ByFrameCountSamplerMultilang.lang_range.
  set (n := (Z.to_nat (m + 1) - 2)%nat). generalize 2%nat.
  induction n as [|n IH]; intros a; cbn; constructor; [|apply IH].
  rewrite in_map_iff. intros (k & Hk & Hin). apply in_seq in Hin. lia.
Qed.

Section MultilangPartitions.
Context {RP : TorchRandperm}.
Variables (d : list Item) (budget : Z) (sh : bool) (sd m : Z).

(** X4: the batches of one iteration hold every index whose language token
    lies in [2, max_language_token] exactly once, and no other index: their
    concatenation is a permutation of the in-range indices. *)
Theorem multilang_iter_partitions_in_range (e : Z) :
  Permutation
    (concat (ByFrameCountSamplerMultilang.__iter__
               (ByFrameCountSamplerMultilang.set_epoch
                  (ByFrameCountSamplerMultilang.__init__ d budget sh sd m) e)))
    (filter (lang_in_range m d) (seq 0 (length d))).
Proof.
  rewrite ML_iter_concat. apply NoDup_Permutation.
  - apply flat_map_NoDup.
    + apply lang_range_NoDup.
    + intros j _. apply StronglySorted_lt_NoDup, enumerate_where_sorted.
    + intros j1 j2 k _ _ H1 H2.
      apply enumerate_where_in in H1 as (x1 & Hx1 & Hp1).
      apply enumerate_where_in in H2 as (x2 & Hx2 & Hp2).
      rewrite Hx1 in Hx2. injection Hx2 as <-.
      unfold ByFrameCountSamplerMultilang.is_lang in *.
      apply Z.eqb_eq in Hp1, Hp2. congruence.
  - apply NoDup_filter, seq_NoDup.
  - intros k. rewrite ML_in_partitions, filter_In, in_seq.
    unfold lang_in_range. rewrite andb_true_iff, !Z.leb_le. lia.
Qed.

(** X5: the constructor keeps [sizes] and [dataset_idx] in step.  For every
    partition [j] and position [i] in it, the two lists of the partition
    have the same length, [dataset_idx[j][i]] is an index of the collection
    whose token is [2 + j], and [sizes[j][i]] is the frame count of that
    very item; the indices of a partition ascend. *)
Theorem multilang_partitions_aligned (e : Z) (j i : nat) :
  let self := ByFrameCountSamplerMultilang.set_epoch
                (ByFrameCountSamplerMultilang.__init__ d budget sh sd m) e in
  let idx := nth j (ByFrameCountSamplerMultilang.dataset_idx self) [] in
  (j < length (ByFrameCountSamplerMultilang.dataset_idx self))%nat ->
  (i < length idx)%nat ->
  length (nth j (ByFrameCountSamplerMultilang.sizes self) []) = length idx
  /\ (nth i idx 0 < length d)%nat
  /\ lang_of d (nth i idx 0%nat) = Z.of_nat (2 + j)
  /\ nth i (nth j (ByFrameCountSamplerMultilang.sizes self) []) 0
     = cost_of d (nth i idx 0%nat)
  /\ StronglySorted lt idx.
Proof.
  intros self idx Hj Hi.
  assert (j < length (ByFrameCountSamplerMultilang.lang_range m))%nat as Hj'
    by (subst self; cbn in Hj; now rewrite length_map in Hj).
  destruct (ML_partition d budget sh sd m e j Hj') as [Hidx Hlen].
  fold self in Hidx, Hlen. fold idx in Hidx, Hlen.
  assert (nth j (ByFrameCountSamplerMultilang.sizes self) []
          = map item_frames
              (filter (ByFrameCountSamplerMultilang.is_lang (Z.of_nat (2 + j))) d))
    as Hsizes.
  { destruct (ML_fields d budget sh sd m e) as [_ Hs]. fold self in Hs. rewrite Hs.
    rewrite (nth_map_in_range _ _ _ 0) by assumption.
    now rewrite lang_range_nth by assumption. }
  pose proof (nth_In idx 0%nat Hi) as Hmem. rewrite Hidx in Hmem at 2.
  apply enumerate_where_in in Hmem as (x & Hx & Hp).
  unfold ByFrameCountSamplerMultilang.is_lang in Hp. apply Z.eqb_eq in Hp.
  split; [exact Hlen|]. split; [apply nth_error_Some; congruence|].
  split; [unfold lang_of; now erewrite nth_error_nth by exact Hx|].
  split.
  - rewrite Hsizes, Hidx. apply enumerate_where_aligned. now rewrite <- Hidx.
  - rewrite Hidx. apply enumerate_where_sorted.
Qed.

Lemma ML_local_cost (e : Z) (j i : nat) :
  let self := ByFrameCountSamplerMultilang.set_epoch
                (ByFrameCountSamplerMultilang.__init__ d budget sh sd m) e in
  let idx := nth j (ByFrameCountSamplerMultilang.dataset_idx self) [] in
  (j < length (ByFrameCountSamplerMultilang.lang_range m))%nat ->
  (i < length (nth j (ByFrameCountSamplerMultilang.sizes self) []))%nat ->
  (nth i idx 0 < length d)%nat
  /\ lang_in_range m d (nth i idx 0%nat) = true
  /\ nth i (nth j (ByFrameCountSamplerMultilang.sizes self) []) 0
     = cost_of d (nth i idx 0%nat).
Proof.
  intros self idx Hj Hi.
  destruct (ML_partition d budget sh sd m e j Hj) as [Hidx Hlen].
  fold self in Hidx, Hlen. fold idx in Hidx, Hlen. rewrite Hlen in Hi.
  assert (nth j (ByFrameCountSamplerMultilang.sizes self) []
          = map item_frames
              (filter (ByFrameCountSamplerMultilang.is_lang (Z.of_nat (2 + j))) d))
    as Hsizes.
  { destruct (ML_fields d budget sh sd m e) as [_ Hs]. fold self in Hs. rewrite Hs.
    rewrite (nth_map_in_range _ _ _ 0) by assumption.
    now rewrite lang_range_nth by assumption. }
  pose proof (nth_In idx 0%nat Hi) as Hmem. rewrite Hidx in Hmem at 2.
  apply enumerate_where_in in Hmem as (x & Hx & Hp).
  unfold ByFrameCountSamplerMultilang.is_lang in Hp. apply Z.eqb_eq in Hp.
  assert (2 <= Z.of_nat (2 + j) <= m) as Hrange.
  { apply lang_range_in. rewrite <- (lang_range_nth m j) by assumption.
    now apply nth_In. }
  split; [apply nth_error_Some; congruence|]. split.
  - unfold lang_in_range, lang_of. erewrite nth_error_nth by exact Hx.
    rewrite Hp. apply andb_true_iff. rewrite !Z.leb_le. lia.
  - rewrite Hsizes, Hidx. apply enumerate_where_aligned. now rewrite <- Hidx.
Qed.

(** X6: when no item of an in-range token costs more than the budget, every
    batch of an iteration is non-empty and the frame counts of its items,
    looked up in the collection by the global indices the batch holds, sum
    to the budget at most. *)
Theorem multilang_batches_within_budget (e : Z) :
  (forall k, (k < length d)%nat -> lang_in_range m d k = true ->
             cost_of d k <= budget) ->
  Forall (fun b => b <> [] /\ total_cost (cost_of d) b <= budget)
    (ByFrameCountSamplerMultilang.__iter__
       (ByFrameCountSamplerMultilang.set_epoch
          (ByFrameCountSamplerMultilang.__init__ d budget sh sd m) e)).
Proof.
  intros Hfit.
  set (self := ByFrameCountSamplerMultilang.set_epoch
                 (ByFrameCountSamplerMultilang.__init__ d budget sh sd m) e).
  unfold ByFrameCountSamplerMultilang.__iter__.
  apply Forall_flat_map, Forall_forall. intros j Hj. apply in_seq in Hj.
  subst self. rewrite ML_length_sizes in Hj.
  set (self := ByFrameCountSamplerMultilang.set_epoch
                 (ByFrameCountSamplerMultilang.__init__ d budget sh sd m) e).
  assert (j < length (ByFrameCountSamplerMultilang.lang_range m))%nat as Hj' by lia.
  unfold ByFrameCountSamplerMultilang.batches_of.
  set (cost := fun i => nth i (nth j (ByFrameCountSamplerMultilang.sizes self) []) 0).
  set (order := ByFrameCountSamplerMultilang._get_indices self j).
  set (g := fun bvali => nth bvali
                           (nth j (ByFrameCountSamplerMultilang.dataset_idx self) [])
                           0%nat).
  assert (forall i, In i order ->
            (g i < length d)%nat /\ lang_in_range m d (g i) = true
            /\ cost i = cost_of d (g i)) as Hlocal.
  { intros i Hi. subst order. apply ML_get_indices_in in Hi.
    exact (ML_local_cost e j i Hj' Hi). }
  assert (concat (data_utils.batch_by_size cost
                    (ByFrameCountSamplerMultilang.max_frames_per_gpu self) order)
          = order) as Hconcat
    by (unfold data_utils.batch_by_size; now rewrite batch_loop_concat).
  assert (Forall (fun b => total_cost cost b <= budget)
            (data_utils.batch_by_size cost
               (ByFrameCountSamplerMultilang.max_frames_per_gpu self) order))
    as Hbudget.
  { unfold data_utils.batch_by_size.
    apply batch_loop_budget; [|intros H; now contradiction H].
    apply Forall_forall. intros i Hi. destruct (Hlocal i Hi) as (Hk & Hr & ->).
    now apply Hfit. }
  pose proof (batch_loop_nonempty cost
                (ByFrameCountSamplerMultilang.max_frames_per_gpu self) order [] 0)
    as Hne.
  fold (data_utils.batch_by_size cost
          (ByFrameCountSamplerMultilang.max_frames_per_gpu self) order) in Hne.
  apply Forall_map. rewrite Forall_forall in *. intros bval Hbval. split.
  - specialize (Hne bval Hbval). destruct bval; [congruence|discriminate].
  - rewrite total_cost_map.
    rewrite (total_cost_ext _ cost); [now apply Hbudget|].
    intros i Hi. symmetry. apply Hlocal. rewrite <- Hconcat.
    apply in_concat. now exists bval.
Qed.
End MultilangPartitions.

Lemma filter_combine_fst_all {A : Type} (p : A -> bool) (l : list A) (a : nat) :
  Forall (fun x => p x = true) l ->
  map fst (filter (fun ki => p (snd ki)) (combine (seq a (length l)) l))
  = seq a (length l).
Proof.
  revert a. induction l as [|x l IH]; intros a Hall; [reflexivity|].
  apply Forall_cons_iff in Hall as [Hx Hall].
  cbn [length seq combine filter snd]. rewrite Hx. cbn [map fst].
  now rewrite IH.
Qed.

Lemma filter_all {A : Type} (p : A -> bool) (l : list A) :
  Forall (fun x => p x = true) l -> filter p l = l.
Proof.
  induction 1 as [|x l Hx Hl IH]; cbn; [reflexivity|]. now rewrite Hx, IH.
Qed.

Lemma filter_none {A : Type} (p : A -> bool) (l : list A) :
  Forall (fun x => p x = false) l -> filter p l = [].
Proof.
  induction 1 as [|x l Hx Hl IH]; cbn; [reflexivity|]. now rewrite Hx, IH.
Qed.

Lemma map_map_id_in (g : nat -> nat) (L : list Batch) :
  (forall b x, In b L -> In x b -> g x = x) -> map (map g) L = L.
Proof.
  intros H. rewrite <- (map_id L) at 2. apply map_ext_in. intros b Hb.
  rewrite <- (map_id b) at 2. apply map_ext_in. intros x Hx. now apply (H b).
Qed.

Section SingleLanguageCollection.
Context {RP : TorchRandperm}.
Variables (d : list Item) (budget : Z) (sh : bool) (sd m : Z).

Lemma ML_sizes_nth (e : Z) (j : nat) :
  (j < length (ByFrameCountSamplerMultilang.lang_range m))%nat ->
  nth j (ByFrameCountSamplerMultilang.sizes
           (ByFrameCountSamplerMultilang.set_epoch
              (ByFrameCountSamplerMultilang.__init__ d budget sh sd m) e)) []
  = map item_frames
      (filter (ByFrameCountSamplerMultilang.is_lang (Z.of_nat (2 + j))) d).
Proof.
  intros Hj. destruct (ML_fields d budget sh sd m e) as [_ Hs]. rewrite Hs.
  rewrite (nth_map_in_range _ _ _ 0) by assumption.
  now rewrite lang_range_nth by assumption.
Qed.

(** X7: over a collection whose items all carry one language token, a token
    of the range [2, max_language_token], the partitioned sampler iterates
    to the very batches of [ByFrameCountSampler] with the same budget,
    shuffle flag, seed and epoch. *)
Theorem multilang_single_language (e c : Z) :
  2 <= c <= m ->
  Forall (fun item => item_lang item = c) d ->
  ByFrameCountSamplerMultilang.__iter__
    (ByFrameCountSamplerMultilang.set_epoch
       (ByFrameCountSamplerMultilang.__init__ d budget sh sd m) e)
  = ByFrameCountSampler.__iter__
      (ByFrameCountSampler.set_epoch
         (ByFrameCountSampler.__init__ d budget sh sd) e).
Proof.
  intros Hc Hall.
  set (self := ByFrameCountSamplerMultilang.set_epoch
                 (ByFrameCountSamplerMultilang.__init__ d budget sh sd m) e).
  set (j0 := (Z.to_nat c - 2)%nat).
  assert (length (ByFrameCountSamplerMultilang.lang_range m)
          = (Z.to_nat (m + 1) - 2)%nat) as Hlen
    by (unfold ByFrameCountSamplerMultilang.lang_range;
        now rewrite length_map, length_seq).
  assert (j0 < length (ByFrameCountSamplerMultilang.lang_range m))%nat as Hj0
    by (subst j0; lia).
  assert (Z.of_nat (2 + j0) = c) as Hc0 by (subst j0; lia).
  unfold ByFrameCountSamplerMultilang.__iter__.
  rewrite (flat_map_single _ _ j0).
  - (* the partition of the token *)
    destruct (ML_partition d budget sh sd m e j0 Hj0) as [Hidx _].
    fold self in Hidx. rewrite Hc0 in Hidx.
    assert (Forall (fun x => ByFrameCountSamplerMultilang.is_lang c x = true) d)
      as Hp.
    { eapply Forall_impl; [|exact Hall]. cbn. intros x Hx.
      unfold ByFrameCountSamplerMultilang.is_lang. now apply Z.eqb_eq. }
    assert (nth j0 (ByFrameCountSamplerMultilang.dataset_idx self) []
            = seq 0 (length d)) as Hidx'.
    { rewrite Hidx. unfold enumerate_where. now apply filter_combine_fst_all. }
    assert (nth j0 (ByFrameCountSamplerMultilang.sizes self) []
            = map item_frames d) as Hsizes.
    { subst self. rewrite ML_sizes_nth by assumption.
      rewrite Hc0. now rewrite filter_all. }
    unfold ByFrameCountSamplerMultilang.batches_of,
      ByFrameCountSamplerMultilang._get_indices.
    rewrite Hidx', Hsizes, length_seq.
    change (ByFrameCountSamplerMultilang.max_frames_per_gpu self) with budget.
    change (ByFrameCountSamplerMultilang.shuffle self) with sh.
    change (ByFrameCountSamplerMultilang.seed self) with sd.
    change (ByFrameCountSamplerMultilang.epoch self) with e.
    unfold ByFrameCountSampler.__iter__, ByFrameCountSampler._get_indices.
    cbn [ByFrameCountSampler.sizes ByFrameCountSampler.max_frames_per_gpu
           ByFrameCountSampler.shuffle ByFrameCountSampler.seed
           ByFrameCountSampler.epoch ByFrameCountSampler.dataset
           ByFrameCountSampler.set_epoch ByFrameCountSampler.__init__].
    set (order := rev (np.lexsort _ (map item_frames d))).
    apply map_map_id_in. intros b x Hb Hx.
    assert (In x order) as Hin.
    { replace order
        with (concat (data_utils.batch_by_size
                        (fun i => nth i (map item_frames d) 0) budget order))
        by (unfold data_utils.batch_by_size; now rewrite batch_loop_concat).
      apply in_concat. now exists b. }
    subst order. apply in_rev, lexsort_in in Hin. rewrite length_map in Hin.
    now apply seq_nth.
  - apply seq_NoDup.
  - apply in_seq. subst self. rewrite ML_length_sizes. lia.
  - (* the other partitions are empty *)
    intros j Hj Hne. apply in_seq in Hj. subst self.
    rewrite ML_length_sizes in Hj.
    unfold ByFrameCountSamplerMultilang.batches_of,
      ByFrameCountSamplerMultilang._get_indices.
    rewrite ML_sizes_nth by lia.
    rewrite filter_none; [reflexivity|].
    eapply Forall_impl; [|exact Hall]. cbn. intros x Hx.
    unfold ByFrameCountSamplerMultilang.is_lang. apply Z.eqb_neq. lia.
Qed.
End SingleLanguageCollection.

(** ** What the wrappers yield *)

Lemma py_getitem_out_of_range {A : Type} (l : list A) (k : nat) :
  (length l <= k)%nat -> py_getitem l (Z.of_nat k) = Raise IndexError.
Proof.
  intros Hk. unfold py_getitem.
  replace (Z.of_nat k <? 0) with false by (symmetry; apply Z.ltb_ge; lia).
  replace ((0 <=? Z.of_nat k) && (Z.of_nat k <? Z.of_nat (length l))) with false;
    [reflexivity|].
  symmetry. apply andb_false_iff. right. apply Z.ltb_ge. lia.
Qed.

Section Yields.
Context {RP : TorchRandperm} {DG : TorchDefaultGenerator}.
Context {S : Type} {SS : Sampler S}.

Lemma getitems_snapshot_raises (sampler : S) (l : list Batch) (items : list nat) :
  Exists (fun i => (length l <= i)%nat) items ->
  fst (DatasetFromSampler.getitems sampler
         {| DatasetFromSampler.sampler_list := Some l |} (map Z.of_nat items))
  = Raise IndexError.
Proof.
  induction items as [|i rest IH]; intros Hex; [now apply Exists_nil in Hex|].
  cbn [map DatasetFromSampler.getitems]. rewrite getitem_cached.
  destruct (Nat.lt_ge_cases i (length l)) as [Hi|Hi].
  - rewrite (py_getitem_in_range (A := Batch) l i []) by assumption.
    apply Exists_cons in Hex as [Hex|Hex]; [lia|]. specialize (IH Hex).
    destruct (DatasetFromSampler.getitems sampler
                {| DatasetFromSampler.sampler_list := Some l |}
                (map Z.of_nat rest)) as [[bs|err] st]; cbn in IH |- *;
      [discriminate|assumption].
  - now rewrite py_getitem_out_of_range.
Qed.

Lemma getitems_fresh_raises (sampler : S) (items : list nat) :
  Exists (fun i => (length (fst (py_list sampler)) <= i)%nat) items ->
  fst (DatasetFromSampler.getitems sampler DatasetFromSampler.__init__
         (map Z.of_nat items))
  = Raise IndexError.
Proof.
  destruct items as [|i rest]; intros Hex; [now apply Exists_nil in Hex|].
  cbn [map DatasetFromSampler.getitems]. rewrite getitem_fresh.
  destruct (Nat.lt_ge_cases i (length (fst (py_list sampler)))) as [Hi|Hi].
  - rewrite (py_getitem_in_range (A := Batch) _ i []) by assumption.
    apply Exists_cons in Hex as [Hex|Hex]; [lia|]. unfold materialized.
    pose proof (getitems_snapshot_raises (snd (py_list sampler))
                  (fst (py_list sampler)) rest Hex) as Hrest.
    destruct (DatasetFromSampler.getitems (snd (py_list sampler))
                {| DatasetFromSampler.sampler_list := Some (fst (py_list sampler)) |}
                (map Z.of_nat rest)) as [[bs|err] st]; cbn in Hrest |- *;
      [discriminate|assumption].
  - now rewrite py_getitem_out_of_range.
Qed.

Lemma iter_itemgetter_several (sampler : S) (idx : list nat) :
  (2 <= length idx)%nat ->
  Forall (fun i => (i < length (fst (py_list sampler)))%nat) idx ->
  fst (iter_itemgetter sampler DatasetFromSampler.__init__ (map Z.of_nat idx))
  = Ok (map (fun i => YBatch (nth i (fst (py_list sampler)) [])) idx).
Proof.
  intros Hlen Hrange. destruct idx as [|i [|k rest]]; cbn in Hlen; try lia.
  pose proof (getitems_fresh_snapshot sampler (i :: k :: rest)
                ltac:(discriminate) Hrange) as Hget.
  unfold iter_itemgetter. cbn [map] in Hget |- *.
  destruct (DatasetFromSampler.getitems sampler DatasetFromSampler.__init__
              (Z.of_nat i :: Z.of_nat k :: map Z.of_nat rest))
    as [[bs|e] [s' d']]; cbn in Hget |- *.
  - injection Hget as ->. cbn [map]. now rewrite map_map.
  - discriminate.
Qed.

Lemma iter_itemgetter_one (sampler : S) (i : nat) :
  (i < length (fst (py_list sampler)))%nat ->
  fst (iter_itemgetter sampler DatasetFromSampler.__init__ (map Z.of_nat [i]))
  = Ok (map YIndex (nth i (fst (py_list sampler)) [])).
Proof.
  intros Hi. cbn [map]. unfold iter_itemgetter. rewrite getitem_fresh.
  now rewrite (py_getitem_in_range (A := Batch) _ i []) by assumption.
Qed.

Lemma iter_itemgetter_raises (sampler : S) (idx : list nat) :
  Exists (fun i => (length (fst (py_list sampler)) <= i)%nat) idx ->
  fst (iter_itemgetter sampler DatasetFromSampler.__init__ (map Z.of_nat idx))
  = Raise IndexError.
Proof.
  intros Hex. pose proof (getitems_fresh_raises sampler idx Hex) as Hget.
  destruct idx as [|i [|k rest]]; [now apply Exists_nil in Hex| |].
  - apply Exists_cons in Hex as [Hi|Hex]; [|now apply Exists_nil in Hex].
    cbn [map]. unfold iter_itemgetter. rewrite getitem_fresh.
    now rewrite py_getitem_out_of_range.
  - unfold iter_itemgetter. cbn [map] in Hget |- *.
    destruct (DatasetFromSampler.getitems sampler DatasetFromSampler.__init__
                (Z.of_nat i :: Z.of_nat k :: map Z.of_nat rest))
      as [[bs|err] [s' d']]; cbn in Hget |- *; [discriminate|].
    now injection Hget as ->.
Qed.

(** X9: a shard that is assigned exactly one snapshot position does not
    yield the batch at that position but the item indices the batch holds,
    one by one. *)
Theorem shard_of_one_batch_yields_its_items (w : DistributedSamplerWrapper.t S)
    (i : nat) :
  DistributedSampler.__iter__ (DistributedSamplerWrapper.super w)
    (py_len (DistributedSamplerWrapper.sampler w)) = Ok [i] ->
  (i < length (fst (py_list (DistributedSamplerWrapper.sampler w))))%nat ->
  fst (DistributedSamplerWrapper.__iter__ w)
  = Ok (map YIndex (nth i (fst (py_list (DistributedSamplerWrapper.sampler w))) [])).
Proof.
  intros Hidx Hi.
  unfold DistributedSamplerWrapper.__iter__, DatasetFromSampler.__len__.
  rewrite Hidx.
  pose proof (iter_itemgetter_one (DistributedSamplerWrapper.sampler w) i Hi) as H.
  destruct (iter_itemgetter (DistributedSamplerWrapper.sampler w)
              DatasetFromSampler.__init__ (map Z.of_nat [i])) as [r [s' d']].
  exact H.
Qed.

(** X10: a sharded wrapper over a sampler that declares no batch is
    constructed for every valid rank, and its iteration raises [TypeError]
    (from [itemgetter] without arguments) and leaves the wrapper as it
    was. *)
Theorem wrapping_empty_sampler (sampler : S) (nr rank : Z) (shw dl : bool) :
  randperm_spec RP ->
  py_len sampler = 0%nat ->
  0 <= rank < nr ->
  exists w,
    DistributedSamplerWrapper.__init__ sampler nr rank shw dl = Ok w
    /\ DistributedSamplerWrapper.__iter__ w = (Raise TypeError, w).
Proof.
  intros Hrp Hlen Hrank.
  unfold DistributedSamplerWrapper.__init__, DistributedSampler.__init__,
    DatasetFromSampler.__len__.
  rewrite Hlen.
  replace ((rank >=? nr) || (rank <? 0)) with false.
  2:{ symmetry. apply orb_false_iff. rewrite Z.geb_leb, Z.leb_gt, Z.ltb_ge. lia. }
  cbn [Z.of_nat]. rewrite Zmod_0_l. cbn [Z.eqb negb]. rewrite andb_false_r.
  unfold ceil_div. cbn [Z.opp]. rewrite Zdiv_0_l. cbn [Z.opp Z.mul].
  eexists. split; [reflexivity|].
  unfold DistributedSamplerWrapper.__iter__, DatasetFromSampler.__len__.
  cbn [DistributedSamplerWrapper.super DistributedSamplerWrapper.sampler].
  rewrite Hlen.
  assert (randperm 0 0 = []) as Hperm.
  { specialize (Hrp 0 0%nat). cbn in Hrp. symmetry in Hrp.
    now apply Permutation_nil in Hrp. }
  unfold DistributedSampler.__iter__, DistributedSampler.padded_indices.
  cbn [DistributedSampler.shuffle DistributedSampler.seed DistributedSampler.epoch
         DistributedSampler.drop_last DistributedSampler.total_size
         DistributedSampler.num_samples DistributedSampler.rank
         DistributedSampler.num_replicas Z.add seq].
  rewrite Hperm. destruct shw, dl; reflexivity.
Qed.

(** X11: when a shard is assigned a position that lies outside the snapshot
    (the sampler yields fewer batches than the shard's positions reach),
    the iteration raises [IndexError]. *)
Theorem shard_position_outside_snapshot (w : DistributedSamplerWrapper.t S)
    (idx : list nat) :
  DistributedSampler.__iter__ (DistributedSamplerWrapper.super w)
    (py_len (DistributedSamplerWrapper.sampler w)) = Ok idx ->
  Exists
    (fun i => (length (fst (py_list (DistributedSamplerWrapper.sampler w))) <= i)%nat)
    idx ->
  fst (DistributedSamplerWrapper.__iter__ w) = Raise IndexError.
Proof.
  intros Hidx Hex.
  unfold DistributedSamplerWrapper.__iter__, DatasetFromSampler.__len__.
  rewrite Hidx.
  pose proof (iter_itemgetter_raises (DistributedSamplerWrapper.sampler w) idx Hex)
    as H.
  destruct (iter_itemgetter (DistributedSamplerWrapper.sampler w)
              DatasetFromSampler.__init__ (map Z.of_nat idx)) as [r [s' d']].
  exact H.
Qed.

(** X13: over a sampler of two or more batches that yields as many batches
    as it declares, an iteration of the reshuffling wrapper yields every
    batch of the snapshot exactly once, in the order the drawn permutation
    gives. *)
Theorem reshuffle_yields_every_batch (rw : RandomSamplerWrapper.t S) (g : Z) :
  randperm_spec RP ->
  (2 <= py_len (RandomSamplerWrapper.sampler rw))%nat ->
  length (fst (py_list (RandomSamplerWrapper.sampler rw)))
  = py_len (RandomSamplerWrapper.sampler rw) ->
  exists ys,
    fst (fst (RandomSamplerWrapper.__iter__ g rw)) = Ok ys
    /\ Permutation ys (map YBatch (fst (py_list (RandomSamplerWrapper.sampler rw)))).
Proof.
  intros Hrp Hn Hlen.
  set (sampler := RandomSamplerWrapper.sampler rw) in *.
  unfold RandomSamplerWrapper.__iter__, RandomSampler.__iter__,
    DatasetFromSampler.__len__.
  fold sampler. destruct (torch_random_ g) as [seed g'].
  destruct (py_len sampler =? 0)%nat eqn:Hz; [apply Nat.eqb_eq in Hz; lia|].
  pose proof (Hrp seed (py_len sampler)) as Hperm.
  set (idx := randperm seed (py_len sampler)) in *.
  assert (2 <= length idx)%nat as Hidx
    by (rewrite (Permutation_length Hperm), length_seq; exact Hn).
  assert (Forall (fun i => (i < length (fst (py_list sampler)))%nat) idx) as Hrange.
  { apply Forall_forall. intros i Hi. eapply Permutation_in in Hi; [|exact Hperm].
    apply in_seq in Hi. lia. }
  pose proof (iter_itemgetter_several sampler idx Hidx Hrange) as Hget.
  destruct (iter_itemgetter sampler DatasetFromSampler.__init__ (map Z.of_nat idx))
    as [r [s' d']]. cbn in Hget |- *. subst r. eexists. split; [reflexivity|].
  rewrite Hperm, <- Hlen, <- map_map.
  now rewrite (map_nth_seq_id (fst (py_list sampler)) []).
Qed.

(** X14: over a sampler of exactly one batch, an iteration of the
    reshuffling wrapper yields the item indices of that batch, not the
    batch. *)
Theorem reshuffle_of_one_batch_yields_its_items (rw : RandomSamplerWrapper.t S)
    (g : Z) :
  randperm_spec RP ->
  py_len (RandomSamplerWrapper.sampler rw) = 1%nat ->
  (1 <= length (fst (py_list (RandomSamplerWrapper.sampler rw))))%nat ->
  fst (fst (RandomSamplerWrapper.__iter__ g rw))
  = Ok (map YIndex (nth 0 (fst (py_list (RandomSamplerWrapper.sampler rw))) [])).
Proof.
  intros Hrp Hn Hlen.
  set (sampler := RandomSamplerWrapper.sampler rw) in *.
  unfold RandomSamplerWrapper.__iter__, RandomSampler.__iter__,
    DatasetFromSampler.__len__.
  fold sampler. destruct (torch_random_ g) as [seed g']. rewrite Hn.
  cbn [Nat.eqb].
  assert (randperm seed 1 = [0%nat]) as Hperm.
  { specialize (Hrp seed 1%nat). cbn in Hrp. symmetry in Hrp.
    now apply Permutation_length_1_inv in Hrp. }
  rewrite Hperm.
  pose proof (iter_itemgetter_one sampler 0 ltac:(lia)) as Hget.
  destruct (iter_itemgetter sampler DatasetFromSampler.__init__ (map Z.of_nat [0%nat]))
    as [r [s' d']]. exact Hget.
Qed.
End Yields.

Section EpochPropagation.
Context {RP : TorchRandperm}.

(** X12: after [set_epoch(e)] on the sharded wrapper, the next iteration
    that is given at least one position holds the wrapped
    [ByFrameCountSampler]'s batches of epoch [e] as its snapshot, whatever
    snapshot the wrapper held before; the wrapped sampler and the parent
    are at epoch [e]. *)
Theorem epoch_reaches_next_iteration
    (w : DistributedSamplerWrapper.t ByFrameCountSampler.t) (e : Z)
    (i : nat) (idx : list nat) :
  DistributedSampler.__iter__
    (DistributedSampler.set_epoch (DistributedSamplerWrapper.super w) e)
    (ByFrameCountSampler.__len__ (DistributedSamplerWrapper.sampler w))
  = Ok (i :: idx) ->
  let w' := snd (DistributedSamplerWrapper.__iter__
                   (DistributedSamplerWrapper.set_epoch w e)) in
  DistributedSamplerWrapper.dataset w'
  = {| DatasetFromSampler.sampler_list :=
         Some (ByFrameCountSampler.__iter__
                 (ByFrameCountSampler.set_epoch
                    (DistributedSamplerWrapper.sampler w) e)) |}
  /\ DistributedSamplerWrapper.sampler w'
     = ByFrameCountSampler.set_epoch (DistributedSamplerWrapper.sampler w) e
  /\ DistributedSampler.epoch (DistributedSamplerWrapper.super w') = e.
Proof.
  intros Hidx.
  unfold DistributedSamplerWrapper.__iter__, DistributedSamplerWrapper.set_epoch,
    DatasetFromSampler.__len__.
  cbn [DistributedSamplerWrapper.super DistributedSamplerWrapper.sampler
         DistributedSamplerWrapper.dataset].
  change (py_len (py_set_epoch (DistributedSamplerWrapper.sampler w) e))
    with (ByFrameCountSampler.__len__ (DistributedSamplerWrapper.sampler w)).
  rewrite Hidx.
  pose proof (iter_itemgetter_fresh
                (py_set_epoch (DistributedSamplerWrapper.sampler w) e)
                (map Z.of_nat (i :: idx)) ltac:(discriminate)) as Hfresh.
  destruct (iter_itemgetter (py_set_epoch (DistributedSamplerWrapper.sampler w) e)
              DatasetFromSampler.__init__ (map Z.of_nat (i :: idx)))
    as [r [s' d']].
  cbn in Hfresh |- *. injection Hfresh as -> ->. repeat split.
Qed.
End EpochPropagation.

(** ** Runs of the further properties *)

Lemma flip_randperm_spec : randperm_spec flip_randperm.
Proof.
  intros s n. unfold randperm, flip_randperm.
  destruct (Z.even s); [reflexivity|]. symmetry. apply Permutation_rev.
Qed.

Section MoreRuns.
#[local] Existing Instance flip_randperm.
#[local] Existing Instance counting_generator.

Lemma whole_of_shuffled_constructed :
  DistributedSamplerWrapper.__init__
    (ByFrameCountSampler.__init__ (items_of_costs [1; 1]) 1 true 0) 1 0 false false
  = Ok whole_of_shuffled.
Proof. reflexivity. Qed.

(** A run of X5: the second item kept for token 2 is the item of index 3. *)
Lemma multilang_partitions_aligned_run :
  let self := ByFrameCountSamplerMultilang.set_epoch
                (ByFrameCountSamplerMultilang.__init__ four_tokens 5 true 0 3) 1 in
  ((0 < length (ByFrameCountSamplerMultilang.dataset_idx self))%nat
   /\ (1 < length (nth 0 (ByFrameCountSamplerMultilang.dataset_idx self) []))%nat)
  /\ nth 1 (nth 0 (ByFrameCountSamplerMultilang.dataset_idx self) []) 0%nat = 3%nat
  /\ nth 1 (nth 0 (ByFrameCountSamplerMultilang.sizes self) []) 0
     = cost_of four_tokens 3.
Proof.
  intros self.
  assert (0 < length (ByFrameCountSamplerMultilang.dataset_idx self))%nat as Hj
    by (vm_compute; lia).
  assert (1 < length (nth 0 (ByFrameCountSamplerMultilang.dataset_idx self) []))%nat
    as Hi by (vm_compute; lia).
  split; [now split|]. split; [reflexivity|].
  exact (proj1 (proj2 (proj2 (proj2
           (multilang_partitions_aligned four_tokens 5 true 0 3 1 0 1 Hj Hi))))).
Defined.

(** A run of X6: budget 10, tokens 2 and 3. *)
Lemma multilang_batches_within_budget_run :
  (forall k, (k < length four_tokens)%nat -> lang_in_range 3 four_tokens k = true ->
             cost_of four_tokens k <= 10)
  /\ Forall (fun b => b <> [] /\ total_cost (cost_of four_tokens) b <= 10)
       (ByFrameCountSamplerMultilang.__iter__
          (ByFrameCountSamplerMultilang.set_epoch
             (ByFrameCountSamplerMultilang.__init__ four_tokens 10 true 0 3) 1)).
Proof.
  assert (forall k, (k < length four_tokens)%nat ->
                    lang_in_range 3 four_tokens k = true ->
                    cost_of four_tokens k <= 10) as Hfit.
  { intros k Hk _. cbn in Hk.
    destruct k as [|[|[|[|k]]]]; cbn; lia. }
  split; [exact Hfit|].
  exact (multilang_batches_within_budget four_tokens 10 true 0 3 1 Hfit).
Defined.

(** A run of X7: the five items, all of token 2. *)
Lemma multilang_single_language_run :
  (2 <= 2 <= 6 /\ Forall (fun item => item_lang item = 2) five_items)
  /\ ByFrameCountSamplerMultilang.__iter__
       (ByFrameCountSamplerMultilang.set_epoch
          (ByFrameCountSamplerMultilang.__init__ five_items 5 true 0 6) 1)
     = ByFrameCountSampler.__iter__
         (ByFrameCountSampler.set_epoch
            (ByFrameCountSampler.__init__ five_items 5 true 0) 1).
Proof.
  assert (2 <= 2 <= 6) as Hc by lia.
  assert (Forall (fun item => item_lang item = 2) five_items) as Hall
    by (repeat constructor).
  split; [now split|].
  exact (multilang_single_language five_items 5 true 0 6 1 2 Hc Hall).
Defined.

(** A run of X8: the shard of rank 1 of 2 over four batches. *)
Lemma shard_of_several_batches_run :
  (DistributedSampler.__iter__ (DistributedSamplerWrapper.super shard_1_of_2)
     (py_len (DistributedSamplerWrapper.sampler shard_1_of_2)) = Ok [1; 3]%nat
   /\ (2 <= length [1; 3]%nat)%nat)
  /\ fst (DistributedSamplerWrapper.__iter__ shard_1_of_2)
     = Ok [YBatch [2%nat]; YBatch [4; 5]%nat].
Proof.
  assert (DistributedSampler.__iter__ (DistributedSamplerWrapper.super shard_1_of_2)
            (py_len (DistributedSamplerWrapper.sampler shard_1_of_2))
          = Ok [1; 3]%nat) as Hidx by reflexivity.
  assert (2 <= length [1; 3]%nat)%nat as Hlen by (cbn; lia).
  assert (Forall
            (fun i => (i < length (fst (py_list
                                          (DistributedSamplerWrapper.sampler
                                             shard_1_of_2))))%nat)
            [1; 3]%nat) as Hrange by (repeat constructor; cbn; lia).
  split; [now split|].
  exact (shard_of_several_batches shard_1_of_2 [1; 3]%nat Hidx Hlen Hrange).
Defined.

(** A run of X9: the shard of rank 1 of 2 over two batches. *)
Lemma shard_of_one_batch_yields_its_items_run :
  (DistributedSampler.__iter__ (DistributedSamplerWrapper.super second_of_two)
     (py_len (DistributedSamplerWrapper.sampler second_of_two)) = Ok [1%nat]
   /\ (1 < length (fst (py_list (DistributedSamplerWrapper.sampler second_of_two))))%nat)
  /\ fst (DistributedSamplerWrapper.__iter__ second_of_two)
     = Ok [YIndex 0; YIndex 1].
Proof.
  assert (DistributedSampler.__iter__ (DistributedSamplerWrapper.super second_of_two)
            (py_len (DistributedSamplerWrapper.sampler second_of_two))
          = Ok [1%nat]) as Hidx by reflexivity.
  assert (1 < length (fst (py_list (DistributedSamplerWrapper.sampler second_of_two))))%nat
    as Hi by (cbn; lia).
  split; [now split|].
  exact (shard_of_one_batch_yields_its_items second_of_two 1 Hidx Hi).
Defined.

(** A run of X10: three shards over a sampler of an empty collection. *)
Lemma wrapping_empty_sampler_run :
  (py_len (ByFrameCountSampler.__init__ [] 5 true 0) = 0%nat /\ 0 <= 2 < 3)
  /\ exists w,
       DistributedSamplerWrapper.__init__
         (ByFrameCountSampler.__init__ [] 5 true 0) 3 2 true false = Ok w
       /\ DistributedSamplerWrapper.__iter__ w = (Raise TypeError, w).
Proof.
  assert (py_len (ByFrameCountSampler.__init__ [] 5 true 0) = 0%nat) as Hlen
    by reflexivity.
  assert (0 <= 2 < 3) as Hrank by lia.
  split; [now split|].
  exact (wrapping_empty_sampler (ByFrameCountSampler.__init__ [] 5 true 0)
           3 2 true false flip_randperm_spec Hlen Hrank).
Defined.

(** A run of X11: three declared positions over a snapshot of two. *)
Lemma shard_position_outside_snapshot_run :
  (DistributedSampler.__iter__ (DistributedSamplerWrapper.super whole_of_short)
     (py_len (DistributedSamplerWrapper.sampler whole_of_short)) = Ok [0; 1; 2]%nat
   /\ Exists
        (fun i => (length (fst (py_list (DistributedSamplerWrapper.sampler
                                           whole_of_short))) <= i)%nat)
        [0; 1; 2]%nat)
  /\ fst (DistributedSamplerWrapper.__iter__ whole_of_short) = Raise IndexError.
Proof.
  assert (DistributedSampler.__iter__ (DistributedSamplerWrapper.super whole_of_short)
            (py_len (DistributedSamplerWrapper.sampler whole_of_short))
          = Ok [0; 1; 2]%nat) as Hidx by reflexivity.
  assert (Exists
            (fun i => (length (fst (py_list (DistributedSamplerWrapper.sampler
                                               whole_of_short))) <= i)%nat)
            [0; 1; 2]%nat) as Hex
    by (apply Exists_cons_tl, Exists_cons_tl, Exists_cons_hd; cbn; lia).
  split; [now split|].
  exact (shard_position_outside_snapshot whole_of_short [0; 1; 2]%nat Hidx Hex).
Defined.

(** A run of X12: the wrapper is moved to epoch 1; the snapshot of the next
    iteration is the one of epoch 1, which begins with item 0. *)
Lemma epoch_reaches_next_iteration_run :
  DistributedSampler.__iter__
    (DistributedSampler.set_epoch (DistributedSamplerWrapper.super whole_of_shuffled) 1)
    (ByFrameCountSampler.__len__ (DistributedSamplerWrapper.sampler whole_of_shuffled))
  = Ok [0; 1]%nat
  /\ DistributedSamplerWrapper.dataset
       (snd (DistributedSamplerWrapper.__iter__
               (DistributedSamplerWrapper.set_epoch whole_of_shuffled 1)))
     = {| DatasetFromSampler.sampler_list := Some [[0]; [1]]%nat |}.
Proof.
  assert (DistributedSampler.__iter__
            (DistributedSampler.set_epoch
               (DistributedSamplerWrapper.super whole_of_shuffled) 1)
            (ByFrameCountSampler.__len__
               (DistributedSamplerWrapper.sampler whole_of_shuffled))
          = Ok [0; 1]%nat) as Hidx by reflexivity.
  split; [exact Hidx|].
  exact (proj1 (epoch_reaches_next_iteration whole_of_shuffled 1 0 [1%nat] Hidx)).
Defined.

(** A run of X13: the reshuffling wrapper over four batches. *)
Lemma reshuffle_yields_every_batch_run :
  ((2 <= py_len (RandomSamplerWrapper.sampler reshuffled))%nat
   /\ length (fst (py_list (RandomSamplerWrapper.sampler reshuffled)))
      = py_len (RandomSamplerWrapper.sampler reshuffled))
  /\ exists ys,
       fst (fst (RandomSamplerWrapper.__iter__ 1 reshuffled)) = Ok ys
       /\ Permutation ys
            (map YBatch (fst (py_list (RandomSamplerWrapper.sampler reshuffled)))).
Proof.
  assert (2 <= py_len (RandomSamplerWrapper.sampler reshuffled))%nat as Hn
    by (cbn; lia).
  assert (length (fst (py_list (RandomSamplerWrapper.sampler reshuffled)))
          = py_len (RandomSamplerWrapper.sampler reshuffled)) as Hlen
    by reflexivity.
  split; [now split|].
  exact (reshuffle_yields_every_batch reshuffled 1 flip_randperm_spec Hn Hlen).
Defined.

(** A run of X14: the reshuffling wrapper over one batch. *)
Lemma reshuffle_of_one_batch_yields_its_items_run :
  (py_len (RandomSamplerWrapper.sampler reshuffled_one) = 1%nat
   /\ (1 <= length (fst (py_list (RandomSamplerWrapper.sampler reshuffled_one))))%nat)
  /\ fst (fst (RandomSamplerWrapper.__iter__ 0 reshuffled_one))
     = Ok [YIndex 0; YIndex 1].
Proof.
  assert (py_len (RandomSamplerWrapper.sampler reshuffled_one) = 1%nat) as Hn
    by reflexivity.
  assert (1 <= length (fst (py_list (RandomSamplerWrapper.sampler reshuffled_one))))%nat
    as Hlen by (cbn; lia).
  split; [now split|].
  exact (reshuffle_of_one_batch_yields_its_items reshuffled_one 0
           flip_randperm_spec Hn Hlen).
Defined.
End MoreRuns.
